(** * Notate chat orchestration: a shallow embedding of [chatRequest] and
    [anthropicAgent], with the properties of the orchestration contract.

    The two functions are asynchronous TypeScript functions whose behaviour is
    a sequence of calls to external collaborators (the settings and
    conversation store [db], the title generator, the vector store, the
    provider adapters, the web fetcher and the UI sink).  They are embedded
    as computations in a state-and-exception monad:

    - the state is the state of the outside world (an arbitrary type [W]
      threaded through every collaborator) together with the chronological
      log of the collaborator calls made so far, each with its arguments and
      its outcome;
    - a computation ends normally, by a propagating exception ([throw]), or
      by a [return] statement of the enclosing function;
    - [try { } catch (error) { }] is [try_catch].

    The collaborators are arbitrary: every property is proved for all of
    them and for every world.  One request is followed from its call to the
    settlement of its promise; calls to the logger are left out.

    JavaScript strings are modelled as Rocq strings (sequences of 8-bit code
    units; [toLowerCase] and [trim] act on ASCII), identifiers
    ([number | bigint], exactly representable) as [Z], the IEEE double
    [temperature] as a rational, and a JSON number as the exact rational its
    literal denotes. *)

From Stdlib Require Import ZArith List String Ascii Bool Lia QArith.
Import ListNotations.

Local Open Scope string_scope.
Local Open Scope Z_scope.

(** ** JavaScript values *)

Module JS.

(** A thrown value: whether it is [instanceof Error], its [code] property
    when it has one, and its stringification (what a template literal
    prints for it). *)
Record JsError : Type := mkError {
  instanceofError : bool;
  code : option string;
  toString : string
}.

(** [new Error(msg)] *)
Definition Error (msg : string) : JsError :=
  mkError true None ("Error: " ++ msg).

(** The TypeError raised when property [prop] is read from [undefined]. *)
Definition TypeError_undefined (prop : string) : JsError :=
  mkError true None
    ("TypeError: Cannot read properties of undefined (reading '" ++ prop ++ "')").

(** The settled state of a promise, or of a synchronous call. *)
Inductive Result (A : Type) : Type :=
| Resolved (a : A)
| Rejected (e : JsError).
Arguments Resolved {A} a.
Arguments Rejected {A} e.

(** The result of [Number(x)] for an identifier [x]. *)
Inductive JsNumber : Type :=
| NaN
| Num (z : Z).

(** [Number(x)] where [x : bigint | number | undefined]. *)
Definition Number (x : option Z) : JsNumber :=
  match x with
  | Some z => Num z
  | None => NaN
  end.

(** Truthiness of a string, of a [string | null | undefined], and of an
    identifier [bigint | number | undefined]. *)
Definition truthy_string (s : string) : bool :=
  match s with
  | EmptyString => false
  | String _ _ => true
  end.

Definition truthy (o : option string) : bool :=
  match o with
  | Some s => truthy_string s
  | None => false
  end.

Definition truthy_id (o : option Z) : bool :=
  match o with
  | Some z => negb (z =? 0)
  | None => false
  end.

Definition lower_ascii (c : ascii) : ascii :=
  let n := nat_of_ascii c in
  if (65 <=? n)%nat && (n <=? 90)%nat then ascii_of_nat (n + 32) else c.

(** [s.toLowerCase()] *)
Fixpoint toLowerCase (s : string) : string :=
  match s with
  | EmptyString => EmptyString
  | String c s' => String (lower_ascii c) (toLowerCase s')
  end.

(** The double quote character, as a one-character string. *)
Definition dquote : string := String (ascii_of_nat 34) EmptyString.

(** The line feed character, as a one-character string. *)
Definition nl : string := String (ascii_of_nat 10) EmptyString.

Fixpoint digits_of_pos (fuel : nat) (n : N) (acc : string) : string :=
  match fuel with
  | O => acc
  | S fuel' =>
      let d := ascii_of_N (48 + N.modulo n 10) in
      let acc' := String d acc in
      match N.div n 10 with
      | N0 => acc'
      | q => digits_of_pos fuel' q acc'
      end
  end.

(** The decimal rendering of an integer, as [String(n)] prints it. *)
Definition string_of_Z (z : Z) : string :=
  let n := Z.abs_N z in
  let ds := digits_of_pos (S (N.to_nat (N.log2 n))) n EmptyString in
  if z <? 0 then String "-" ds else ds.

End JS.
Import JS.

(** ** The monad of function bodies *)

Section Monad.

Context {St R : Type}.

(** How the evaluation of a statement completes. *)
Inductive Completion (A : Type) : Type :=
| Normal (a : A)
| Throw (e : JsError)
| Return (r : R).

Definition M (A : Type) : Type := St -> Completion A * St.

Definition ret {A} (a : A) : M A := fun st => (Normal A a, st).

Definition throw {A} (e : JsError) : M A := fun st => (Throw A e, st).

(** [return r;] *)
Definition return_ {A} (r : R) : M A := fun st => (Return A r, st).

Definition bind {A B} (c : M A) (k : A -> M B) : M B :=
  fun st =>
    match c st with
    | (Normal _ a, st') => k a st'
    | (Throw _ e, st') => (Throw B e, st')
    | (Return _ r, st') => (Return B r, st')
    end.

(** [try { body } catch (error) { handler }] *)
Definition try_catch {A} (body : M A) (handler : JsError -> M A) : M A :=
  fun st =>
    match body st with
    | (Throw _ e, st') => handler e st'
    | other => other
    end.

(** The promise of an [async] function whose body always leaves through
    [return] or [throw]. *)
Definition async (body : M Empty_set) (st : St) : Result R * St :=
  match body st with
  | (Normal _ v, _) => match v with end
  | (Throw _ e, st') => (Rejected e, st')
  | (Return _ r, st') => (Resolved r, st')
  end.

End Monad.

Arguments Completion : clear implicits.
Arguments M : clear implicits.
Arguments Normal {R A} a.
Arguments Throw {R A} e.
Arguments Return {R A} r.

Declare Scope js_scope.
Delimit Scope js_scope with js.
Notation "'let*' x ':=' c 'in' k" := (bind c (fun x => k))
  (at level 10, x name, c at level 100, k at level 200) : js_scope.
Notation "c ';;' k" := (bind c (fun _ => k))
  (at level 100, k at level 200, right associativity) : js_scope.

(** The world and the log of collaborator calls. *)
Record State (W E : Type) : Type := mkState {
  world : W;
  trace : list E
}.
Arguments mkState {W E} world trace.
Arguments world {W E} s.
Arguments trace {W E} s.

(** A call to an external collaborator [f]: it runs in the current world,
    is logged with its outcome, and its rejection is thrown. *)
Definition call {W E R A} (f : W -> Result A * W) (ev : Result A -> E)
  : M (State W E) R A :=
  fun st =>
    let (r, w') := f (world st) in
    let st' := mkState w' (trace st ++ [ev r]) in
    match r with
    | Resolved a => (Normal a, st')
    | Rejected e => (Throw e, st')
    end.

(** Reading the world without changing it. *)
Definition observe {W E R A} (f : W -> A) : M (State W E) R A :=
  fun st => (Normal (f (world st)), st).

(** ** Data model of the chat request *)

Module Message.
Record t : Type := mk {
  role : string;
  content : string;
  timestamp : Z;
  reasoning_content : option string;
  data_content : option string
}.
End Message.

Module User.
Record t : Type := mk {
  id : Z;
  name : string
}.
End User.

Module UserSettings.
Record t : Type := mk {
  provider : option string;
  model : option string;
  promptId : option Z;
  temperature : option Q
}.
End UserSettings.

(** One retrieved passage. *)
Module Doc.
Record t : Type := mk {
  content : string;
  metadata : string
}.
End Doc.

(** The local [data] of [chatRequest]: the retrieval result. *)
Module Data.
Record t : Type := mk {
  top_k : Z;
  results : list Doc.t
}.
End Data.

(** What [vectorstoreQuery] resolves to: an object whose [status] and
    [message] are set on an error report and whose [results] are set on
    success. *)
Module VectorstoreData.
Record t : Type := mk {
  status : option string;
  message : option string;
  results : option (list Doc.t)
}.
End VectorstoreData.

(** The payload handed to [vectorstoreQuery]. *)
Module Query.
Record t : Type := mk {
  query : string;
  userId : Z;
  userName : string;
  collectionId : JsNumber;
  collectionName : string
}.
End Query.

Module ProviderResponse.
Record t : Type := mk {
  id : Z;
  messages : list Message.t;
  title : string;
  content : string;
  reasoning : option string;
  aborted : bool
}.
End ProviderResponse.

(** The object [chatRequest] resolves to.  The fields [content],
    [reasoning] and [aborted] are those spread from the provider's response;
    they are absent from the envelopes built on the error paths. *)
Module ChatResult.
Record t : Type := mk {
  id : Z;
  messages : list Message.t;
  title : string;
  data_content : option string;
  reasoning_content : option string;
  content : option string;
  reasoning : option string;
  aborted : option bool
}.
End ChatResult.

(** Opaque handles passed through to the provider. *)
Inductive BrowserWindow : Type := Window (handle : Z).
Inductive AbortSignal : Type := Signal (handle : Z).

(** The provider adapters the switch dispatches to. *)
Inductive Provider : Type :=
| OpenAIProvider
| OpenRouterProvider
| AzureOpenAIProvider
| AnthropicProvider
| GeminiProvider
| XAIProvider
| LocalModelProvider
| OllamaProvider
| CustomProvider
| DeepSeekProvider.

(** The argument list of a provider invocation. *)
Module ProviderArgs.
Record t : Type := mk {
  messages : list Message.t;
  activeUser : User.t;
  userSettings : UserSettings.t;
  prompt : string;
  conversationId : option Z;
  mainWindow : option BrowserWindow;
  currentTitle : option string;
  collectionId : JsNumber;
  data : option Data.t;
  signal : option AbortSignal
}.
End ProviderArgs.

(** The collaborator calls of [chatRequest], each with its arguments and
    its outcome. *)
Inductive Event : Type :=
| GetUserSettings (userId : Z) (r : Result UserSettings.t)
| GenerateTitle (input : string) (userId : Z) (model : option string)
    (r : Result (option string))
| GetCollectionName (collectionId : JsNumber) (r : Result string)
| VectorstoreQuery (payload : Query.t) (r : Result (option VectorstoreData.t))
| GetUserConversationTitle (conversationId : JsNumber) (userId : Z)
    (r : Result (option string))
| AddUserConversation (userId : Z) (title : option string) (r : Result Z)
| GetUserPrompt (userId : Z) (promptId : JsNumber) (r : Result (option string))
| Invoke (p : Provider) (args : ProviderArgs.t) (r : Result ProviderResponse.t)
| AddUserMessage (userId : Z) (conversationId : JsNumber) (role content : string)
    (reasoning : option string) (collectionId : option JsNumber) (r : Result Z)
| AddRetrievedData (messageId : JsNumber) (data : string) (r : Result unit).

(** ** [JSON.stringify] on the retrieval data *)

Module Stringify.

Definition hex_digit (n : nat) : ascii :=
  if (n <? 10)%nat then ascii_of_nat (48 + n) else ascii_of_nat (87 + n).

Definition backslash : ascii := ascii_of_nat 92.

(** One code unit of a quoted JSON string. *)
Definition quote_char (c : ascii) : string :=
  let n := nat_of_ascii c in
  if (n =? 34)%nat then String backslash dquote
  else if (n =? 92)%nat then String backslash (String backslash EmptyString)
  else if (n =? 8)%nat then String backslash "b"
  else if (n =? 12)%nat then String backslash "f"
  else if (n =? 10)%nat then String backslash "n"
  else if (n =? 13)%nat then String backslash "r"
  else if (n =? 9)%nat then String backslash "t"
  else if (n <? 32)%nat then
    String backslash
      (String "u" (String "0" (String "0"
         (String (hex_digit (n / 16)) (String (hex_digit (n mod 16)) EmptyString)))))
  else String c EmptyString.

Fixpoint quote_body (s : string) : string :=
  match s with
  | EmptyString => EmptyString
  | String c s' => quote_char c ++ quote_body s'
  end.

Definition quote (s : string) : string := dquote ++ quote_body s ++ dquote.

Definition doc (d : Doc.t) : string :=
  "{" ++ quote "content" ++ ":" ++ quote (Doc.content d) ++ ","
      ++ quote "metadata" ++ ":" ++ quote (Doc.metadata d) ++ "}".

Fixpoint docs (l : list Doc.t) : string :=
  match l with
  | [] => EmptyString
  | [d] => doc d
  | d :: l' => doc d ++ "," ++ docs l'
  end.

(** [JSON.stringify(data)] *)
Definition JSON_stringify (data : Data.t) : string :=
  "{" ++ quote "top_k" ++ ":" ++ string_of_Z (Data.top_k data) ++ ","
      ++ quote "results" ++ ":[" ++ docs (Data.results data) ++ "]}".

End Stringify.
Import Stringify.

(** ** [chatRequest] *)

Definition eqb_opt (o : option string) (s : string) : bool :=
  match o with
  | Some x => String.eqb x s
  | None => false
  end.

(** The static dispatch of the [switch] over
    [userSettings.provider?.toLowerCase()]; [None] is the [default] case. *)
Definition selectProvider (key : option string) : option Provider :=
  match option_map toLowerCase key with
  | None => None
  | Some k =>
      if String.eqb k "openai" then Some OpenAIProvider
      else if String.eqb k "openrouter" then Some OpenRouterProvider
      else if String.eqb k "azure open ai" then Some AzureOpenAIProvider
      else if String.eqb k "anthropic" then Some AnthropicProvider
      else if String.eqb k "gemini" then Some GeminiProvider
      else if String.eqb k "xai" then Some XAIProvider
      else if String.eqb k "local" then Some LocalModelProvider
      else if String.eqb k "ollama" then Some OllamaProvider
      else if String.eqb k "custom" then Some CustomProvider
      else if String.eqb k "deepseek" then Some DeepSeekProvider
      else None
  end.

Definition noProviderSelected : JsError :=
  Error "No AI provider selected. Please open Settings (top right) make sure you add an API key and select a provider under the 'AI Provider' tab.".

(** The log file named in the remediation message. *)
Definition logPath (platform homedir : string) : string :=
  if String.eqb platform "darwin"
  then homedir ++ "/Library/Application Support/notate/main.log"
  else if String.eqb platform "win32"
  then homedir ++ "/AppData/Roaming/notate/main.log"
  else homedir ++ "~/.config/notate/main.log".

Definition unauthorizedContent (platform homedir : string) : string :=
  "There is an issue with the SECRET_KEY not being in sync across the front/backend." ++ nl ++ nl ++
  "Please try the following steps:" ++ nl ++
  "1. Restart your PC" ++ nl ++
  "2. If the issue persists, check your logs at:" ++ nl ++
  "   " ++ logPath platform homedir ++ nl ++ nl ++
  "3. Open a GitHub issue at https://github.com/CNTRLAI/notate and include your logs".

Definition vectorstoreErrorContent (error : JsError) : string :=
  "Error in vectorstore query: " ++ toString error.

Definition needApiKeyContent : string :=
  "Please add an API key and select an AI Model in Settings.".

(** [{ role: "assistant", content, timestamp: new Date(), data_content: undefined }] *)
Definition newMessage (content : string) (now : Z) : Message.t :=
  Message.mk "assistant" content now None None.

(** [{ id: -1, messages: [...messages, newMessage], title }] *)
Definition envelope (messages : list Message.t) (m : Message.t) (title : string)
  : ChatResult.t :=
  ChatResult.mk (-1) (messages ++ [m]) title None None None None None.

(** [error instanceof Error && "code" in error &&
     error.code === "SQLITE_CONSTRAINT_FOREIGNKEY"] *)
Definition isForeignKeyError (error : JsError) : bool :=
  instanceofError error && eqb_opt (code error) "SQLITE_CONSTRAINT_FOREIGNKEY".

(** [!userSettings.temperature] *)
Definition falsy_temperature (t : option Q) : bool :=
  match t with
  | Some q => Qeq_bool q 0
  | None => true
  end.

Definition defaultTemperature (s : UserSettings.t) : UserSettings.t :=
  if falsy_temperature (UserSettings.temperature s)
  then UserSettings.mk (UserSettings.provider s) (UserSettings.model s)
         (UserSettings.promptId s) (Some (1 # 2)%Q)
  else s.

(** [msg => ({ ...msg, reasoning_content:
      msg.role === "assistant" ? result.reasoning : undefined })] *)
Definition stampReasoning (reasoning : option string) (msg : Message.t) : Message.t :=
  Message.mk (Message.role msg) (Message.content msg) (Message.timestamp msg)
    (if String.eqb (Message.role msg) "assistant" then reasoning else None)
    (Message.data_content msg).

(** The object returned on the normal path. *)
Definition finalResult (result : ProviderResponse.t) (data : option Data.t)
  (title : string) : ChatResult.t :=
  ChatResult.mk
    (ProviderResponse.id result)
    (map (stampReasoning (ProviderResponse.reasoning result))
       (ProviderResponse.messages result))
    title
    (option_map JSON_stringify data)
    (if truthy (ProviderResponse.reasoning result)
     then ProviderResponse.reasoning result else None)
    (Some (ProviderResponse.content result))
    (ProviderResponse.reasoning result)
    (Some (ProviderResponse.aborted result)).

Fixpoint lastMessage (messages : list Message.t) : option Message.t :=
  match messages with
  | [] => None
  | [m] => Some m
  | _ :: l => lastMessage l
  end.

Section ChatRequest.

Variable W : Type.

(** The collaborators of [chatRequest]: the host ([os], the clock), the
    module-level [mainWindow], and the imported functions, each acting on
    the world. *)
Record Env : Type := mkEnv {
  os_platform : string;
  os_homedir : string;
  Date_now : W -> Z;
  mainWindow : option BrowserWindow;
  db_getUserSettings : Z -> W -> Result UserSettings.t * W;
  generateTitle : string -> Z -> option string -> W -> Result (option string) * W;
  db_getCollectionName : JsNumber -> W -> Result string * W;
  vectorstoreQuery : Query.t -> W -> Result (option VectorstoreData.t) * W;
  db_getUserConversationTitle : JsNumber -> Z -> W -> Result (option string) * W;
  db_addUserConversation : Z -> option string -> W -> Result Z * W;
  db_getUserPrompt : Z -> JsNumber -> W -> Result (option string) * W;
  provider : Provider -> ProviderArgs.t -> W -> Result ProviderResponse.t * W;
  db_addUserMessage :
    Z -> JsNumber -> string -> string -> option string -> option JsNumber ->
    W -> Result Z * W;
  db_addRetrievedData : JsNumber -> string -> W -> Result unit * W
}.

Variable env : Env.

Local Abbreviation Body := (M (State W Event) ChatResult.t).

Local Open Scope js_scope.

(** The parameters of [chatRequest]. *)
Variable messages : list Message.t.
Variable activeUser : User.t.
Variable conversationId : option Z.
Variable title : option string.
Variable collectionId : option Z.
Variable signal : option AbortSignal.

(** [messages[messages.length - 1].content] *)
Definition lastContent : Body string :=
  match lastMessage messages with
  | Some m => ret (Message.content m)
  | None => throw (TypeError_undefined "content")
  end.

(** The body of the function is embedded block by block, in the order of
    the source; the blocks are put together in [chatRequest_body]. *)

(** Lines 53-59: a new conversation without a title gets a generated
    one.  [currentTitle] is [title || null]. *)
Definition resolveTitle (currentTitle : option string)
  (userSettings : UserSettings.t) : Body (option string) :=
  if negb (truthy_id conversationId)
     && match currentTitle with None => true | Some _ => false end
  then
    let* input := lastContent in
    call (generateTitle env input (User.id activeUser)
            (UserSettings.model userSettings))
         (GenerateTitle input (User.id activeUser)
            (UserSettings.model userSettings))
  else ret currentTitle.

(** Lines 61-128: the retrieval data of the request, [null] without a
    collection; the two failures of the query leave the function. *)
Definition retrieve (platform : string) : Body (option Data.t) :=
  if truthy_id collectionId then
    let* collectionName :=
      call (db_getCollectionName env (Number collectionId))
           (GetCollectionName (Number collectionId)) in
    try_catch
      (let* query := lastContent in
       let payload :=
         Query.mk query (User.id activeUser) (User.name activeUser)
           (Number collectionId) collectionName in
       let* vectorstoreData :=
         call (vectorstoreQuery env payload) (VectorstoreQuery payload) in
       match vectorstoreData with
       | None => throw (TypeError_undefined "status")
       | Some v =>
           (if eqb_opt (VectorstoreData.status v) "error"
               && eqb_opt (VectorstoreData.message v) "Unauthorized"
            then
              let* now := observe (Date_now env) in
              return_
                (envelope messages
                   (newMessage (unauthorizedContent platform (os_homedir env)) now)
                   "Need API Key")
            else ret tt) ;;
           (* an object is truthy: [if (vectorstoreData)] is taken *)
           match VectorstoreData.results v with
           | None => throw (TypeError_undefined "length")
           | Some results =>
               ret (Some (Data.mk (Z.of_nat (List.length results)) results))
           end
       end)
      (fun error =>
         let* now := observe (Date_now env) in
         return_
           (envelope messages
              (newMessage (vectorstoreErrorContent error) now)
              "Error in vectorstore query"))
  else ret None.

(** Lines 130-135: without a title so far, the stored title of the
    conversation. *)
Definition storedTitle (currentTitle : option string) : Body (option string) :=
  if negb (truthy currentTitle) then
    call (db_getUserConversationTitle env (Number conversationId)
            (User.id activeUser))
         (GetUserConversationTitle (Number conversationId)
            (User.id activeUser))
  else ret currentTitle.

(** Lines 137-143: a request without a conversation creates it; the
    result is the [conversationId] of the rest of the function. *)
Definition ensureConversation (currentTitle : option string) : Body (option Z) :=
  if negb (truthy_id conversationId) then
    let* addConversation :=
      call (db_addUserConversation env (User.id activeUser) currentTitle)
           (AddUserConversation (User.id activeUser) currentTitle) in
    ret (Some addConversation)
  else ret conversationId.

(** Lines 145-155: the system prompt. *)
Definition resolvePrompt (userSettings : UserSettings.t) : Body string :=
  let* getPrompt :=
    call (db_getUserPrompt env (User.id activeUser)
            (Number (UserSettings.promptId userSettings)))
         (GetUserPrompt (User.id activeUser)
            (Number (UserSettings.promptId userSettings))) in
  ret match getPrompt with
      | Some prompt => prompt
      | None => "You are a helpful assistant."
      end.

(** Lines 156-192: the provider of the settings. *)
Definition resolveProvider (userSettings : UserSettings.t) : Body Provider :=
  match selectProvider (UserSettings.provider userSettings) with
  | Some p => ret p
  | None => throw noProviderSelected
  end.

(** Lines 193-195: still without a title, the first 20 characters of the
    latest message. *)
Definition fallbackTitle (currentTitle : option string) : Body (option string) :=
  if negb (truthy currentTitle) then
    let* c := lastContent in
    ret (Some (substring 0 20 c))
  else ret currentTitle.

(** Lines 211-247: the user turn, the assistant turn, and the retrieval
    data against the id of the assistant turn; a foreign-key violation
    ends the block quietly, any other error leaves it. *)
Definition persist (conversationId : option Z) (result : ProviderResponse.t)
  (data : option Data.t) : Body unit :=
  try_catch
    (let* c := lastContent in
     call (db_addUserMessage env (User.id activeUser) (Number conversationId)
             "user" c None None)
          (AddUserMessage (User.id activeUser) (Number conversationId)
             "user" c None None) ;;
     let coll :=
       if truthy_id collectionId then Some (Number collectionId) else None in
     let* assistantMessageId :=
       call (db_addUserMessage env (User.id activeUser) (Number conversationId)
               "assistant" (ProviderResponse.content result)
               (ProviderResponse.reasoning result) coll)
            (AddUserMessage (User.id activeUser) (Number conversationId)
               "assistant" (ProviderResponse.content result)
               (ProviderResponse.reasoning result) coll) in
     match data with
     | Some d =>
         call (db_addRetrievedData env (Number (Some assistantMessageId))
                 (JSON_stringify d))
              (AddRetrievedData (Number (Some assistantMessageId))
                 (JSON_stringify d))
     | None => ret tt
     end)
    (fun error =>
       if negb (isForeignKeyError error) then throw error else ret tt).

(** Lines 258-259:
    [currentTitle || messages[messages.length - 1].content.substring(0, 20)] *)
Definition returnedTitle (currentTitle : option string) : Body string :=
  match currentTitle with
  | Some t =>
      if truthy_string t then ret t
      else let* c := lastContent in ret (substring 0 20 c)
  | None => let* c := lastContent in ret (substring 0 20 c)
  end.

Definition chatRequest_body : Body Empty_set :=
  let platform := os_platform env in
  try_catch
    (let currentTitle : option string := if truthy title then title else None in
     let* userSettings :=
       call (db_getUserSettings env (User.id activeUser))
            (GetUserSettings (User.id activeUser)) in
     let* currentTitle := resolveTitle currentTitle userSettings in
     let* data := retrieve platform in
     let* currentTitle := storedTitle currentTitle in
     let* conversationId := ensureConversation currentTitle in
     let* prompt := resolvePrompt userSettings in
     let* provider_ := resolveProvider userSettings in
     let* currentTitle := fallbackTitle currentTitle in
     let userSettings := defaultTemperature userSettings in
     let args :=
       ProviderArgs.mk messages activeUser userSettings prompt conversationId
         (mainWindow env) currentTitle (Number collectionId) data signal in
     let* result := call (provider env provider_ args) (Invoke provider_ args) in
     persist conversationId result data ;;
     let* title := returnedTitle currentTitle in
     return_ (finalResult result data title))
    (fun error =>
       let* now := observe (Date_now env) in
       return_ (envelope messages (newMessage needApiKeyContent now) "Need API Key")).

(** The promise [chatRequest(...)] settles to, the final world, and the
    log of the collaborator calls of the request. *)
Definition chatRequest (w : W) : Result ChatResult.t * State W Event :=
  async chatRequest_body (mkState w []).

End ChatRequest.

(** ** [String.prototype.trim] and [JSON.parse] *)

Module Json.

#[local] Set Warnings "-register-all".

(** The value [JSON.parse] builds.  A number is kept as the exact rational
    its decimal literal denotes. *)
Inductive value : Type :=
| Null
| Bool (b : bool)
| Num (q : Q)
| Str (s : string)
| Array (elements : list value)
| Object (members : list (string * value)).

Inductive parsed (A : Type) : Type :=
| Parsed (a : A) (rest : string)
| SyntaxError
| OutOfFuel.
Arguments Parsed {A} a rest.
Arguments SyntaxError {A}.
Arguments OutOfFuel {A}.

(** White space stripped by [trim]: TAB, LF, VT, FF, CR and space. *)
Definition is_trim_space (c : ascii) : bool :=
  let n := nat_of_ascii c in
  ((9 <=? n)%nat && (n <=? 13)%nat) || (n =? 32)%nat.

Fixpoint trimStart (s : string) : string :=
  match s with
  | String c s' => if is_trim_space c then trimStart s' else s
  | EmptyString => EmptyString
  end.

Fixpoint trimEnd (s : string) : string :=
  match s with
  | EmptyString => EmptyString
  | String c s' =>
      match trimEnd s' with
      | EmptyString => if is_trim_space c then EmptyString else String c EmptyString
      | t => String c t
      end
  end.

(** [s.trim()] *)
Definition trim (s : string) : string := trimEnd (trimStart s).

(** JSON white space: TAB, LF, CR and space. *)
Definition is_ws (c : ascii) : bool :=
  let n := nat_of_ascii c in
  (n =? 9)%nat || (n =? 10)%nat || (n =? 13)%nat || (n =? 32)%nat.

Fixpoint skip_ws (s : string) : string :=
  match s with
  | String c s' => if is_ws c then skip_ws s' else s
  | EmptyString => EmptyString
  end.

Definition digit (c : ascii) : option N :=
  let n := N_of_ascii c in
  if (48 <=? n)%N && (n <=? 57)%N then Some (n - 48)%N else None.

Definition hex (c : ascii) : option N :=
  let n := N_of_ascii c in
  if (48 <=? n)%N && (n <=? 57)%N then Some (n - 48)%N
  else if (65 <=? n)%N && (n <=? 70)%N then Some (n - 55)%N
  else if (97 <=? n)%N && (n <=? 102)%N then Some (n - 87)%N
  else None.

(** The longest run of decimal digits at the head of [s]: its value, its
    length, and what follows it. *)
Fixpoint digits (s : string) (acc : N) (len : nat) : N * nat * string :=
  match s with
  | String c s' =>
      match digit c with
      | Some d => digits s' (10 * acc + d)%N (S len)
      | None => (acc, len, s)
      end
  | EmptyString => (acc, len, s)
  end.

(** The UTF-8 bytes of a code unit below 0x10000. *)
Definition utf8 (cp : N) : string :=
  let b (n : N) := String (ascii_of_N n) EmptyString in
  if (cp <? 128)%N then b cp
  else if (cp <? 2048)%N then b (192 + cp / 64)%N ++ b (128 + cp mod 64)%N
  else b (224 + cp / 4096)%N ++ b (128 + (cp / 64) mod 64)%N ++ b (128 + cp mod 64)%N.

(** The characters of a string literal after its opening quote. *)
Fixpoint string_body (s : string) : parsed string :=
  match s with
  | EmptyString => SyntaxError
  | String c s' =>
      let n := nat_of_ascii c in
      if (n =? 34)%nat then Parsed EmptyString s'
      else if (n =? 92)%nat then
        match s' with
        | String e s'' =>
            let simple (c' : nat) :=
              match string_body s'' with
              | Parsed t rest => Parsed (String (ascii_of_nat c') t) rest
              | other => other
              end in
            let k := nat_of_ascii e in
            if (k =? 34)%nat then simple 34%nat
            else if (k =? 92)%nat then simple 92%nat
            else if (k =? 47)%nat then simple 47%nat
            else if (k =? 98)%nat then simple 8%nat
            else if (k =? 102)%nat then simple 12%nat
            else if (k =? 110)%nat then simple 10%nat
            else if (k =? 114)%nat then simple 13%nat
            else if (k =? 116)%nat then simple 9%nat
            else if (k =? 117)%nat then
              match s'' with
              | String h1 (String h2 (String h3 (String h4 s3))) =>
                  match hex h1, hex h2, hex h3, hex h4 with
                  | Some a, Some b, Some c', Some d =>
                      match string_body s3 with
                      | Parsed t rest =>
                          Parsed (utf8 (4096 * a + 256 * b + 16 * c' + d)%N ++ t) rest
                      | other => other
                      end
                  | _, _, _, _ => SyntaxError
                  end
              | _ => SyntaxError
              end
            else SyntaxError
        | EmptyString => SyntaxError
        end
      else if (n <? 32)%nat then SyntaxError
      else
        match string_body s' with
        | Parsed t rest => Parsed (String c t) rest
        | other => other
        end
  end.

(** The integer part of a number literal whose first digit [d] has been
    read: a lone zero, or a run of digits. *)
Definition int_part (d : N) (s : string) : N * string :=
  if (d =? 0)%N then (0%N, s)
  else let '(n, _, rest) := digits s d 1%nat in (n, rest).

(** The optional fraction: a point and at least one digit. *)
Definition frac_part (s : string) : option (N * nat * string) :=
  match s with
  | String "." rest =>
      let '(f, len, rest') := digits rest 0%N 0%nat in
      match len with
      | O => None
      | _ => Some (f, len, rest')
      end
  | _ => Some (0%N, 0%nat, s)
  end.

(** The digits of an exponent, at least one. *)
Definition exp_digits (positive : bool) (s : string) : option (Z * string) :=
  let '(e, len, rest) := digits s 0%N 0%nat in
  match len with
  | O => None
  | _ => Some (if positive then Z.of_N e else (- Z.of_N e)%Z, rest)
  end.

(** The optional exponent: [e] or [E], an optional sign, and digits. *)
Definition exp_part (s : string) : option (Z * string) :=
  match s with
  | String x rest =>
      if Ascii.eqb x "e" || Ascii.eqb x "E" then
        match rest with
        | String "+" r => exp_digits true r
        | String "-" r => exp_digits false r
        | _ => exp_digits true rest
        end
      else Some (0%Z, s)
  | EmptyString => Some (0%Z, s)
  end.

(** A number literal whose sign has been read. *)
Definition number (negative : bool) (s : string) : parsed value :=
  match s with
  | EmptyString => SyntaxError
  | String c s' =>
      match digit c with
      | None => SyntaxError
      | Some d =>
          let (int, rest) := int_part d s' in
          match frac_part rest with
          | None => SyntaxError
          | Some (f, flen, rest) =>
              match exp_part rest with
              | None => SyntaxError
              | Some (e, rest) =>
                  let mantissa := Z.of_N (int * 10 ^ N.of_nat flen + f) in
                  let q :=
                    (inject_Z (if negative then - mantissa else mantissa)
                     * Qpower (inject_Z 10) (e - Z.of_nat flen))%Q in
                  Parsed (Num q) rest
              end
          end
      end
  end.

Definition literal (word : string) (v : value) (s : string) : parsed value :=
  if prefix word s
  then Parsed v (substring (String.length word) (String.length s - String.length word) s)
  else SyntaxError.

(** A JSON value at the head of [s], white space before it skipped. *)
Fixpoint parse_value (fuel : nat) (s : string) : parsed value :=
  match fuel with
  | O => OutOfFuel
  | S fuel' =>
      match skip_ws s with
      | EmptyString => SyntaxError
      | String c rest =>
          let n := nat_of_ascii c in
          if (n =? 123)%nat then
            match skip_ws rest with
            | String "}" rest' => Parsed (Object []) rest'
            | _ =>
                match parse_members fuel' rest with
                | Parsed ms rest' => Parsed (Object ms) rest'
                | SyntaxError => SyntaxError
                | OutOfFuel => OutOfFuel
                end
            end
          else if (n =? 91)%nat then
            match skip_ws rest with
            | String "]" rest' => Parsed (Array []) rest'
            | _ =>
                match parse_elements fuel' rest with
                | Parsed es rest' => Parsed (Array es) rest'
                | SyntaxError => SyntaxError
                | OutOfFuel => OutOfFuel
                end
            end
          else if (n =? 34)%nat then
            match string_body rest with
            | Parsed t rest' => Parsed (Str t) rest'
            | SyntaxError => SyntaxError
            | OutOfFuel => OutOfFuel
            end
          else if (n =? 45)%nat then number true rest
          else if (n =? 116)%nat then literal "true" (Bool true) (String c rest)
          else if (n =? 102)%nat then literal "false" (Bool false) (String c rest)
          else if (n =? 110)%nat then literal "null" Null (String c rest)
          else number false (String c rest)
      end
  end

(** The members of an object after its opening brace, up to and including
    the closing brace. *)
with parse_members (fuel : nat) (s : string) : parsed (list (string * value)) :=
  match fuel with
  | O => OutOfFuel
  | S fuel' =>
      match skip_ws s with
      | String c rest =>
          if (nat_of_ascii c =? 34)%nat then
            match string_body rest with
            | Parsed key rest1 =>
                match skip_ws rest1 with
                | String ":" rest2 =>
                    match parse_value fuel' rest2 with
                    | Parsed v rest3 =>
                        match skip_ws rest3 with
                        | String "," rest4 =>
                            match parse_members fuel' rest4 with
                            | Parsed ms rest5 => Parsed ((key, v) :: ms) rest5
                            | other => other
                            end
                        | String "}" rest4 => Parsed [(key, v)] rest4
                        | _ => SyntaxError
                        end
                    | SyntaxError => SyntaxError
                    | OutOfFuel => OutOfFuel
                    end
                | _ => SyntaxError
                end
            | SyntaxError => SyntaxError
            | OutOfFuel => OutOfFuel
            end
          else SyntaxError
      | EmptyString => SyntaxError
      end
  end

(** The elements of an array after its opening bracket, up to and
    including the closing bracket. *)
with parse_elements (fuel : nat) (s : string) : parsed (list value) :=
  match fuel with
  | O => OutOfFuel
  | S fuel' =>
      match parse_value fuel' s with
      | Parsed v rest =>
          match skip_ws rest with
          | String "," rest' =>
              match parse_elements fuel' rest' with
              | Parsed es rest'' => Parsed (v :: es) rest''
              | other => other
              end
          | String "]" rest' => Parsed [v] rest'
          | _ => SyntaxError
          end
      | SyntaxError => SyntaxError
      | OutOfFuel => OutOfFuel
      end
  end.

Definition syntaxError : JsError :=
  mkError true None "SyntaxError: Unexpected token in JSON".

(** [JSON.parse(text)]: one value, with nothing but white space after it.
    Of any two nested calls of the parser one has read a character, so the
    fuel, twice the length of the text, is never exhausted
    ([JsonFacts.JSON_parse_fuel]). *)
Definition JSON_parse (text : string) : Result value :=
  match parse_value (2 * String.length text + 2) text with
  | Parsed v rest =>
      match skip_ws rest with
      | EmptyString => Resolved v
      | String _ _ => Rejected syntaxError
      end
  | SyntaxError => Rejected syntaxError
  | OutOfFuel => Rejected syntaxError
  end.

(** The value of property [key] of a parsed object: the last member of
    that name. *)
Fixpoint get (key : string) (members : list (string * value)) : option value :=
  match members with
  | [] => None
  | (k, v) :: ms =>
      match get key ms with
      | Some v' => Some v'
      | None => if String.eqb k key then Some v else None
      end
  end.

End Json.

(** ** [anthropicAgent] *)

Module Agent.

(** [ChatCompletionMessageParam], with a text content. *)
Module Param.
Record t : Type := mk {
  role : string;
  content : string
}.
End Param.

(** A block of [response.content]. *)
Module Block.
Record t : Type := mk {
  type : string;
  text : string
}.
End Block.

(** The argument of [anthropic.messages.create]. *)
Module Create.
Record t : Type := mk {
  model : string;
  max_tokens : Z;
  system : string;
  messages : list Param.t
}.
End Create.

Module Metadata.
Record t : Type := mk {
  title : string;
  source : string;
  description : string;
  author : string;
  keywords : string;
  ogImage : string
}.
End Metadata.

Module WebSearchResult.
Record t : Type := mk {
  metadata : Metadata.t;
  textContent : string
}.
End WebSearchResult.

(** What the schema [AgentActions] validates. *)
Module AgentActions.
Record t : Type := mk {
  webUrl : Q;
  url : string
}.
End AgentActions.

(** [finalResponse] *)
Module Response.
Record t : Type := mk {
  content : string;
  webSearchResult : option WebSearchResult.t
}.
End Response.

Inductive Event : Type :=
| SendMessageChunk (content : string) (mainWindow : option BrowserWindow)
| MessagesCreate (params : Create.t) (r : Result (list Block.t))
| WebSearch (url : string) (r : Result (option WebSearchResult.t)).

Definition sysPrompt : string :=
  "You are an AI Agent with the ability to visit websites and extract text and metadata. " ++ nl ++
  "    Your task is to analyze the user's question and determine if visiting a website would help answer it." ++ nl ++
  "    " ++ nl ++
  "    If web search would be helpful, respond with EXACTLY this JSON format:" ++ nl ++
  "    {" ++ nl ++
  "      " ++ dquote ++ "webUrl" ++ dquote ++ ": 1," ++ nl ++
  "      " ++ dquote ++ "url" ++ dquote ++ ": " ++ dquote ++ "full_url_here" ++ dquote ++ nl ++
  "    }" ++ nl ++
  "    " ++ nl ++
  "    If web search is not needed, respond with EXACTLY:" ++ nl ++
  "    {" ++ nl ++
  "      " ++ dquote ++ "webUrl" ++ dquote ++ ": 0," ++ nl ++
  "      " ++ dquote ++ "url" ++ dquote ++ ": " ++ dquote ++ dquote ++ nl ++
  "    }" ++ nl ++
  "    " ++ nl ++
  "    Only respond with one of these two JSON formats, nothing else." ++ nl ++
  "    Make sure the URL is a complete, valid URL starting with http:// or https://" ++ nl ++
  "    Do not include any explanation or additional text in your response.".

Definition zodError : JsError :=
  mkError true None "ZodError".

(** [AgentActions.parse(v)] for
    [z.object({ webUrl: z.number(), url: z.string() })]: [v] must be an
    object whose [webUrl] is a number and whose [url] is a string; other
    properties are dropped. *)
Definition AgentActions_parse (v : Json.value) : Result AgentActions.t :=
  match v with
  | Json.Object members =>
      match Json.get "webUrl" members, Json.get "url" members with
      | Some (Json.Num n), Some (Json.Str u) => Resolved (AgentActions.mk n u)
      | _, _ => Rejected zodError
      end
  | _ => Rejected zodError
  end.

(** The body of the [try] block that reads the agent's decision. *)
Definition readActions (content : list Block.t) : Result AgentActions.t :=
  match content with
  | [] => Rejected (TypeError_undefined "type")
  | block :: _ =>
      let responseText :=
        if String.eqb (Block.type block) "text" then Block.text block
        else EmptyString in
      match Json.JSON_parse (Json.trim responseText) with
      | Resolved v => AgentActions_parse v
      | Rejected e => Rejected e
      end
  end.

(** The fallback decision: [webUrl] 0 and the empty [url]. *)
Definition noWebSearch : AgentActions.t := AgentActions.mk 0 EmptyString.

(** The value of [agentActions] after the [try] statement: what the block
    read, or the fallback when it threw. *)
Definition decision (content : list Block.t) : AgentActions.t :=
  match readActions content with
  | Resolved actions => actions
  | Rejected _ => noWebSearch
  end.

Definition lift {St R A} (r : Result A) : M St R A :=
  match r with
  | Resolved a => ret a
  | Rejected e => throw e
  end.

Section AnthropicAgent.

Variable W : Type.

(** The collaborators of [anthropicAgent]. *)
Record Env : Type := mkEnv {
  anthropic_messages_create : Create.t -> W -> Result (list Block.t) * W;
  webSearch : string -> W -> Result (option WebSearchResult.t) * W;
  sendMessageChunk : string -> option BrowserWindow -> W -> W
}.

Variable env : Env.

Local Abbreviation Body := (M (State W Event) Response.t).

(** Modelled from the spec: the helper [sendMessageChunk] is not part of
    the sources; the UI sink is a fire-and-forget, one-way notification
    path, so a push changes the world and is logged, and does not
    fail. *)
Definition push (content : string) (mainWindow : option BrowserWindow)
  : Body unit :=
  fun st =>
    (Normal tt,
     mkState (sendMessageChunk env content mainWindow (world st))
             (trace st ++ [SendMessageChunk content mainWindow])).

Local Open Scope js_scope.

Definition anthropicAgent_body
  (messages : list Param.t) (maxOutputTokens : Z)
  (userSettings : UserSettings.t) (signal : option AbortSignal)
  (mainWindow : option BrowserWindow) : Body Empty_set :=
  push "[Agent]: " mainWindow ;;
  let params :=
    Create.mk "claude-3-sonnet-20240229" maxOutputTokens sysPrompt
      (map (fun msg =>
              Param.mk
                (if String.eqb (Param.role msg) "assistant"
                 then "assistant" else "user")
                (Param.content msg))
           messages) in
  let* response :=
    call (anthropic_messages_create env params) (MessagesCreate params) in
  let* agentActions :=
    try_catch (lift (readActions response)) (fun error => ret noWebSearch) in
  let* webSearchResult :=
    if Qeq_bool (AgentActions.webUrl agentActions) 1
       && truthy_string (AgentActions.url agentActions)
    then
      try_catch
        (let* result :=
           call (webSearch env (AgentActions.url agentActions))
                (WebSearch (AgentActions.url agentActions)) in
         push ("[REASONING]: Visiting website: "
                 ++ AgentActions.url agentActions ++ nl) mainWindow ;;
         ret result)
        (fun error =>
           push ("[REASONING]: Failed to visit website: "
                   ++ AgentActions.url agentActions ++ nl) mainWindow ;;
           ret None)
    else ret None in
  let finalResponse :=
    Response.mk
      (match webSearchResult with
       | Some _ => "Retrieved content from: " ++ AgentActions.url agentActions
       | None => "No web search was needed or the search failed"
       end)
      webSearchResult in
  return_ finalResponse.

Definition anthropicAgent
  (messages : list Param.t) (maxOutputTokens : Z)
  (userSettings : UserSettings.t) (signal : option AbortSignal)
  (mainWindow : option BrowserWindow)
  (w : W) : Result Response.t * State W Event :=
  async (anthropicAgent_body messages maxOutputTokens userSettings signal
           mainWindow)
        (mkState w []).

End AnthropicAgent.

End Agent.

(** ** Vocabulary of the properties *)

(** The degraded substitute of a response: sentinel id, the original
    messages plus one synthetic assistant message, and a short title. *)
Definition ErrorEnvelope (messages : list Message.t) (r : ChatResult.t) : Prop :=
  exists content now title, r = envelope messages (newMessage content now) title.

(** The generic envelope of the outer boundary. *)
Definition NeedApiKey (messages : list Message.t) (r : ChatResult.t) : Prop :=
  exists now, r = envelope messages (newMessage needApiKeyContent now) "Need API Key".



(** The retrieval call reports Unauthorized. *)
Definition reportsUnauthorized (v : VectorstoreData.t) : Prop :=
  VectorstoreData.status v = Some "error"
  /\ VectorstoreData.message v = Some "Unauthorized".

(** The retrieval call reports a generic error with the detail [detail]:
    the call rejects, and the detail is the stringified error; or it
    resolves to an error report [{status: "error", message}] other than
    Unauthorized, and the detail is the reported message. *)
Inductive reportsGenericError
  : Result (option VectorstoreData.t) -> string -> Prop :=
| rejects (e : JsError) :
    reportsGenericError (Rejected e) (toString e)
| error_report (v : VectorstoreData.t) (message : string) :
    VectorstoreData.status v = Some "error" ->
    VectorstoreData.message v = Some message ->
    message <> "Unauthorized" ->
    reportsGenericError (Resolved (Some v)) message.

(** A write of the persistence phase that failed with [e]. *)
Definition persistenceFailure (ev : Event) (e : JsError) : Prop :=
  match ev with
  | AddUserMessage _ _ _ _ _ _ (Rejected e') => e' = e
  | AddRetrievedData _ _ (Rejected e') => e' = e
  | _ => False
  end.

(** A collaborator call whose rejection [e] no inner handler absorbs: any
    call but the retrieval query, and a write of the persistence phase when
    [e] is not the foreign-key violation. *)
Definition uncaught (ev : Event) (e : JsError) : Prop :=
  match ev with
  | GetUserSettings _ (Rejected e')
  | GenerateTitle _ _ _ (Rejected e')
  | GetCollectionName _ (Rejected e')
  | GetUserConversationTitle _ _ (Rejected e')
  | AddUserConversation _ _ (Rejected e')
  | GetUserPrompt _ _ (Rejected e')
  | Invoke _ _ (Rejected e') => e' = e
  | AddUserMessage _ _ _ _ _ _ (Rejected e')
  | AddRetrievedData _ _ (Rejected e') => e' = e /\ isForeignKeyError e = false
  | _ => False
  end.

(** The kinds of events the blocks of [chatRequest] log. *)
Definition title_event (ev : Event) : bool :=
  match ev with GenerateTitle _ _ _ _ => true | _ => false end.

Definition stored_event (ev : Event) : bool :=
  match ev with GetUserConversationTitle _ _ _ => true | _ => false end.

Definition conversation_event (ev : Event) : bool :=
  match ev with AddUserConversation _ _ _ => true | _ => false end.

Definition prompt_event (ev : Event) : bool :=
  match ev with GetUserPrompt _ _ _ => true | _ => false end.

Definition persist_event (ev : Event) : bool :=
  match ev with
  | AddUserMessage _ _ _ _ _ _ _ | AddRetrievedData _ _ _ => true
  | _ => false
  end.

Definition no_event (ev : Event) : bool := false.

(** A block settles with events of kind [K]: it does not leave the function
    by [return], it appends to the log only events of that kind, and a
    rejection that no handler absorbs makes it throw. *)
Definition settles {W A} (K : Event -> bool)
  (c : M (State W Event) ChatResult.t A) : Prop :=
  forall st o st',
    c st = (o, st') ->
    (forall r, o <> Return r)
    /\ exists evs,
         trace st' = (trace st ++ evs)%list
         /\ Forall (fun ev => K ev = true) evs
         /\ (forall ev e, In ev evs -> uncaught ev e -> exists e', o = Throw e').

(** [whole] includes the text [part]. *)
Definition includes (part whole : string) : Prop :=
  exists before after, whole = before ++ part ++ after.

(** [whole.includes(part)], decided. *)
Fixpoint includesb (part whole : string) : bool :=
  prefix part whole
  || match whole with
     | EmptyString => false
     | String _ rest => includesb part rest
     end.

(** ** Concrete environments *)

Module Scenario.

(** What the collaborators answer in a scripted run.  The world is the
    next row id of the store. *)
Record t : Type := mk {
  settings : Result UserSettings.t;
  generated : Result (option string);
  retrieved : Result (option VectorstoreData.t);
  stored : Result (option string);
  userTurn : option JsError;
  assistantTurn : option JsError;
  retrievalRecord : option JsError
}.

Definition insert (failure : option JsError) (w : Z) : Result Z * Z :=
  match failure with
  | Some e => (Rejected e, w)
  | None => (Resolved w, w + 1)
  end.

Definition reply (args : ProviderArgs.t) : ProviderResponse.t :=
  ProviderResponse.mk
    (match ProviderArgs.conversationId args with Some c => c | None => 0 end)
    (ProviderArgs.messages args ++ [Message.mk "assistant" "Entangled particles share one state." 2 None None])
    (match ProviderArgs.currentTitle args with Some s => s | None => EmptyString end)
    "Entangled particles share one state."
    None
    false.

Definition env (s : t) : Env Z :=
  mkEnv Z "linux" "/home/ada" (fun _ => 1700000000000) None
    (fun _ w => (settings s, w))
    (fun _ _ _ w => (generated s, w))
    (fun _ w => (Resolved "papers", w))
    (fun _ w => (retrieved s, w))
    (fun _ _ w => (stored s, w))
    (fun _ _ w => insert None w)
    (fun _ _ w => (Resolved None, w))
    (fun _ args w => (Resolved (reply args), w))
    (fun _ _ role _ _ _ w =>
       insert (if String.eqb role "user" then userTurn s else assistantTurn s) w)
    (fun _ _ w =>
       match retrievalRecord s with
       | Some e => (Rejected e, w)
       | None => (Resolved tt, w)
       end).

Definition ada : User.t := User.mk 1 "ada".

Definition question : list Message.t :=
  [Message.mk "user" "Explain quantum entanglement in simple terms please" 1 None None].

Definition anthropicSettings : UserSettings.t :=
  UserSettings.mk (Some "Anthropic") (Some "claude-3-sonnet") None None.


Definition passages : list Doc.t :=
  [Doc.mk "Bell 1964" "physics.pdf"; Doc.mk "EPR 1935" "review.pdf"].

Definition found : VectorstoreData.t :=
  VectorstoreData.mk (Some "success") None (Some passages).

Definition unauthorized : VectorstoreData.t :=
  VectorstoreData.mk (Some "error") (Some "Unauthorized") None.

Definition foreignKey : JsError :=
  mkError true (Some "SQLITE_CONSTRAINT_FOREIGNKEY") "SqliteError: FOREIGN KEY constraint failed".

Definition diskFull : JsError :=
  mkError true (Some "SQLITE_FULL") "SqliteError: database or disk is full".

Definition timeout : JsError := Error "connect ETIMEDOUT".

(** Every collaborator answers; the title generator answers with
    [generated]. *)
Definition healthy (generated : option string) : t :=
  mk (Resolved anthropicSettings) (Resolved generated) (Resolved (Some found))
     (Resolved None) None None None.

(** The agent's collaborators: the model answers [text]; the fetch of any
    URL gives [fetched]. *)
Definition agentEnv (text : string)
  (fetched : Result (option Agent.WebSearchResult.t)) : Agent.Env unit :=
  Agent.mkEnv unit
    (fun _ w => (Resolved [Agent.Block.mk "text" text], w))
    (fun _ w => (fetched, w))
    (fun _ _ w => w).

Definition wellFormed : string :=
  "{" ++ dquote ++ "webUrl" ++ dquote ++ ":1," ++ dquote ++ "url" ++ dquote
      ++ ":" ++ dquote ++ "https://example.com" ++ dquote ++ "}".

Definition withProse : string := "Sure! " ++ wellFormed.

Definition page : Agent.WebSearchResult.t :=
  Agent.WebSearchResult.mk
    (Agent.Metadata.mk "Example Domain" "https://example.com" EmptyString
       EmptyString EmptyString EmptyString)
    "This domain is for use in illustrative examples.".

Definition ask : list Agent.Param.t :=
  [Agent.Param.mk "user" "What does example.com say?"].

End Scenario.

(** ** Scripted runs *)

Definition unauthorized_run :=
  chatRequest Z
    (Scenario.env
       (Scenario.mk (Resolved Scenario.anthropicSettings) (Resolved (Some "Quantum Basics"))
          (Resolved (Some Scenario.unauthorized)) (Resolved None) None None None))
    Scenario.question Scenario.ada None None (Some 7) None 100.

Definition retrieval_error_run :=
  chatRequest Z
    (Scenario.env
       (Scenario.mk (Resolved Scenario.anthropicSettings) (Resolved (Some "Quantum Basics"))
          (Rejected Scenario.timeout) (Resolved None) None None None))
    Scenario.question Scenario.ada None None (Some 7) None 100.

Definition retrieval_run :=
  chatRequest Z (Scenario.env (Scenario.healthy (Some "Quantum Basics")))
    Scenario.question Scenario.ada None None (Some 7) None 100.

(** The argument list of the provider invocation of [retrieval_run]. *)
Definition retrieval_args : ProviderArgs.t :=
  ProviderArgs.mk Scenario.question Scenario.ada
    (defaultTemperature Scenario.anthropicSettings)
    "You are a helpful assistant." (Some 100) None (Some "Quantum Basics")
    (Num 7) (Some (Data.mk 2 Scenario.passages)) None.



Definition titled_run :=
  chatRequest Z (Scenario.env (Scenario.healthy (Some "Quantum Basics")))
    Scenario.question Scenario.ada None None None None 100.

Definition untitled_run :=
  chatRequest Z (Scenario.env (Scenario.healthy None))
    Scenario.question Scenario.ada None None None None 100.

(** The user turn is refused as a foreign-key violation. *)
Definition duplicate_run :=
  chatRequest Z
    (Scenario.env
       (Scenario.mk (Resolved Scenario.anthropicSettings) (Resolved (Some "Quantum Basics"))
          (Resolved (Some Scenario.found)) (Resolved None)
          (Some Scenario.foreignKey) None None))
    Scenario.question Scenario.ada None None (Some 7) None 100.

(** The assistant turn fails for another reason. *)
Definition disk_full_run :=
  chatRequest Z
    (Scenario.env
       (Scenario.mk (Resolved Scenario.anthropicSettings) (Resolved (Some "Quantum Basics"))
          (Resolved (Some Scenario.found)) (Resolved None)
          None (Some Scenario.diskFull) None))
    Scenario.question Scenario.ada None None (Some 7) None 100.

(** The title generator answers with an empty title and the store has
    none. *)
Definition empty_title_run :=
  chatRequest Z (Scenario.env (Scenario.healthy (Some EmptyString)))
    Scenario.question Scenario.ada None None None None 100.

(** [{ content: "No web search was needed or the search failed",
       webSearchResult: null }] *)
Definition noSearchResponse : Agent.Response.t :=
  Agent.Response.mk "No web search was needed or the search failed" None.

Definition prose_run :=
  Agent.anthropicAgent unit
    (Scenario.agentEnv Scenario.withProse (Resolved (Some Scenario.page)))
    Scenario.ask 1024 Scenario.anthropicSettings None None tt.

Definition well_formed_run :=
  Agent.anthropicAgent unit
    (Scenario.agentEnv Scenario.wellFormed (Resolved (Some Scenario.page)))
    Scenario.ask 1024 Scenario.anthropicSettings None None tt.

Definition failed_fetch_run :=
  Agent.anthropicAgent unit
    (Scenario.agentEnv Scenario.wellFormed (Rejected Scenario.timeout))
    Scenario.ask 1024 Scenario.anthropicSettings None None tt.

(** The collaborators [e] on another host. *)
Definition onHost (platform homedir : string) (e : Env Z) : Env Z :=
  mkEnv Z platform homedir (Date_now Z e) (mainWindow Z e)
    (db_getUserSettings Z e) (generateTitle Z e) (db_getCollectionName Z e)
    (vectorstoreQuery Z e) (db_getUserConversationTitle Z e)
    (db_addUserConversation Z e) (db_getUserPrompt Z e) (provider Z e)
    (db_addUserMessage Z e) (db_addRetrievedData Z e).

(** The run of [unauthorized_run] on a host of the given platform. *)
Definition unauthorized_run_on (platform homedir : string) :=
  chatRequest Z
    (onHost platform homedir
       (Scenario.env
          (Scenario.mk (Resolved Scenario.anthropicSettings)
             (Resolved (Some "Quantum Basics"))
             (Resolved (Some Scenario.unauthorized)) (Resolved None)
             None None None)))
    Scenario.question Scenario.ada None None (Some 7) None 100.

(** [{ status: "error", message: "Collection not found" }] *)
Definition collectionNotFound : VectorstoreData.t :=
  VectorstoreData.mk (Some "error") (Some "Collection not found") None.

(** The same report, carrying an empty array of results. *)
Definition collectionNotFoundWithResults : VectorstoreData.t :=
  VectorstoreData.mk (Some "error") (Some "Collection not found") (Some []).

(** The vector store reports that the collection does not exist. *)
Definition reported_error_run :=
  chatRequest Z
    (Scenario.env
       (Scenario.mk (Resolved Scenario.anthropicSettings)
          (Resolved (Some "Quantum Basics"))
          (Resolved (Some collectionNotFound)) (Resolved None) None None None))
    Scenario.question Scenario.ada None None (Some 7) None 100.

Definition reported_error_with_results_run :=
  chatRequest Z
    (Scenario.env
       (Scenario.mk (Resolved Scenario.anthropicSettings)
          (Resolved (Some "Quantum Basics"))
          (Resolved (Some collectionNotFoundWithResults)) (Resolved None)
          None None None))
    Scenario.question Scenario.ada None None (Some 7) None 100.

(** ** The built-ins *)

Example toLowerCase_mixed : toLowerCase "Azure Open AI" = "azure open ai".
Proof. reflexivity. Qed.

Example selectProvider_mixed_case :
  selectProvider (Some "DeepSeek") = Some DeepSeekProvider.
Proof. reflexivity. Qed.

Example selectProvider_unknown : selectProvider (Some "bogus") = None.
Proof. reflexivity. Qed.

Example selectProvider_undefined : selectProvider None = None.
Proof. reflexivity. Qed.

Example trim_both_ends : Json.trim ("  a b " ++ nl) = "a b".
Proof. reflexivity. Qed.

Example JSON_stringify_data :
  JSON_stringify (Data.mk 1 [Doc.mk ("a" ++ nl) "m"])
  = "{" ++ dquote ++ "top_k" ++ dquote ++ ":1," ++ dquote ++ "results" ++ dquote
    ++ ":[{" ++ dquote ++ "content" ++ dquote ++ ":" ++ dquote ++ "a\n" ++ dquote
    ++ "," ++ dquote ++ "metadata" ++ dquote ++ ":" ++ dquote ++ "m" ++ dquote
    ++ "}]}".
Proof. reflexivity. Qed.

Example JSON_parse_leading_zero : Json.JSON_parse "01" = Rejected Json.syntaxError.
Proof. reflexivity. Qed.

Example JSON_parse_nested :
  Json.JSON_parse "[[1.5], {}, null ]"
  = Resolved (Json.Array [Json.Array [Json.Num (15 # 10)]; Json.Object []; Json.Null]).
Proof. reflexivity. Qed.

Lemma lower_ascii_idempotent c : lower_ascii (lower_ascii c) = lower_ascii c.
Proof. destruct c as [[] [] [] [] [] [] [] []]; reflexivity. Qed.

Lemma toLowerCase_idempotent s : toLowerCase (toLowerCase s) = toLowerCase s.
Proof.
  induction s as [| c s IH]; cbn; [reflexivity |].
  now rewrite lower_ascii_idempotent, IH.
Qed.

(** The dispatch does not depend on the case of the configured key. *)
Lemma selectProvider_case_insensitive key :
  selectProvider (Some (toLowerCase key)) = selectProvider (Some key).
Proof. unfold selectProvider. cbn. now rewrite toLowerCase_idempotent. Qed.

Module JsonFacts.
Import Json.

Lemma skip_ws_length s : (String.length (skip_ws s) <= String.length s)%nat.
Proof.
  induction s as [| c s IH]; cbn; [lia |].
  destruct (is_ws c); cbn; lia.
Qed.

Lemma digits_length s acc len :
  (String.length (snd (digits s acc len)) <= String.length s)%nat.
Proof.
  revert acc len. induction s as [| c s IH]; intros acc len; cbn [digits].
  - cbn. lia.
  - destruct (digit c) as [d |].
    + specialize (IH (10 * acc + d)%N (S len)). cbn [String.length]. lia.
    + cbn. lia.
Qed.

Lemma string_body_fuel s : string_body s <> OutOfFuel.
Proof.
  remember (String.length s) as n eqn:Hn.
  revert s Hn. induction n as [n IH] using lt_wf_ind. intros s Hn.
  destruct s as [| c s]; cbn; [discriminate |].
  repeat match goal with
         | |- context [if ?b then _ else _] => destruct b
         | |- context [match ?x with _ => _ end] =>
             lazymatch x with
             | string_body ?t =>
                 let H := fresh in
                 assert (H : string_body t <> OutOfFuel)
                   by (eapply IH; [ | reflexivity ]; subst n; cbn; lia);
                 destruct (string_body t); try congruence
             | _ => destruct x
             end
         end; try discriminate.
Qed.

Lemma string_body_shrinks s : forall t rest,
  string_body s = Parsed t rest -> (String.length rest < String.length s)%nat.
Proof.
  remember (String.length s) as n eqn:Hn.
  revert s Hn. induction n as [n IH] using lt_wf_ind. intros s Hn t rest.
  destruct s as [| c s]; cbn [string_body]; [discriminate |].
  assert (Hrec : forall s' t' rest',
             (String.length s' <= String.length s)%nat ->
             string_body s' = Parsed t' rest' ->
             (String.length rest' < String.length s')%nat).
  { intros s' t' rest' Hle H. eapply IH; [ | reflexivity | exact H ].
    subst n. cbn [String.length]. lia. }
  repeat match goal with
         | |- context [if ?b then _ else _] => destruct b
         | |- context [match ?x with _ => _ end] =>
             lazymatch x with
             | string_body ?t =>
                 let E := fresh "E" in
                 destruct (string_body t) eqn:E;
                 [ apply Hrec in E; [ | cbn [String.length]; lia ] | | ]
             | _ => destruct x
             end
         end;
    intros H; try discriminate H; injection H as <- <-;
    cbn [String.length] in *; lia.
Qed.

Lemma substring_length n m s : (String.length (substring n m s) <= m)%nat.
Proof.
  revert n m. induction s as [| c s IH]; intros [| n] [| m]; cbn; try lia.
  - specialize (IH 0%nat m). lia.
  - apply IH.
  - apply IH.
Qed.

Lemma prefix_length w s : prefix w s = true -> (String.length w <= String.length s)%nat.
Proof.
  revert s. induction w as [| c w IH]; intros [| d s]; cbn; try lia; try discriminate.
  destruct (ascii_dec c d); [ | discriminate ].
  intros H. apply IH in H. lia.
Qed.

Lemma literal_shrinks w v s v' rest :
  w <> EmptyString ->
  literal w v s = Parsed v' rest -> (String.length rest < String.length s)%nat.
Proof.
  unfold literal. intros Hw. destruct (prefix w s) eqn:E; [ | discriminate ].
  intros H. injection H as _ <-.
  apply prefix_length in E.
  pose proof (substring_length (String.length w) (String.length s - String.length w) s).
  destruct w; [ congruence | cbn [String.length] in *; lia ].
Qed.

Lemma literal_fuel w v s : literal w v s <> OutOfFuel.
Proof. unfold literal. destruct (prefix w s); discriminate. Qed.

Lemma number_fuel b s : number b s <> OutOfFuel.
Proof.
  unfold number.
  repeat match goal with
         | |- context [match ?x with _ => _ end] => destruct x
         end; discriminate.
Qed.

Lemma digits_rest s acc len n k rest :
  digits s acc len = (n, k, rest) -> (String.length rest <= String.length s)%nat.
Proof.
  intros H. pose proof (digits_length s acc len) as L. now rewrite H in L.
Qed.

Lemma int_part_rest d s n rest :
  int_part d s = (n, rest) -> (String.length rest <= String.length s)%nat.
Proof.
  unfold int_part. destruct (d =? 0)%N.
  - intros H. injection H as _ <-. lia.
  - destruct (digits s d 1) as [[? ?] ?] eqn:E. apply digits_rest in E.
    intros H. injection H as _ <-. exact E.
Qed.

Lemma frac_part_rest s f len rest :
  frac_part s = Some (f, len, rest) -> (String.length rest <= String.length s)%nat.
Proof.
  unfold frac_part.
  assert (Hself : Some (0%N, 0%nat, s) = Some (f, len, rest) ->
                  (String.length rest <= String.length s)%nat)
    by (intros H; injection H as _ _ <-; lia).
  destruct s as [| c s]; [exact Hself |].
  destruct c as [[] [] [] [] [] [] [] []]; try exact Hself.
  destruct (digits s 0 0) as [[? k] r] eqn:E. apply digits_rest in E.
  destruct k; [discriminate |].
  intros H. injection H as _ _ <-. cbn [String.length]. lia.
Qed.

Lemma exp_digits_rest b s e rest :
  exp_digits b s = Some (e, rest) -> (String.length rest <= String.length s)%nat.
Proof.
  unfold exp_digits.
  destruct (digits s 0 0) as [[? k] r] eqn:E. apply digits_rest in E.
  destruct k; [discriminate |].
  intros H. injection H as _ <-. exact E.
Qed.

Lemma exp_part_rest s e rest :
  exp_part s = Some (e, rest) -> (String.length rest <= String.length s)%nat.
Proof.
  unfold exp_part.
  destruct s as [| x s]; [intros H; injection H as _ <-; lia |].
  destruct (Ascii.eqb x "e" || Ascii.eqb x "E").
  - assert (Hplain : exp_digits true s = Some (e, rest) ->
                     (String.length rest <= String.length (String x s))%nat)
      by (intros H; apply exp_digits_rest in H; cbn [String.length]; lia).
    destruct s as [| c s]; [exact Hplain |].
    destruct c as [[] [] [] [] [] [] [] []]; try exact Hplain.
    all: intros H; apply exp_digits_rest in H; cbn [String.length]; lia.
  - intros H. injection H as _ <-. lia.
Qed.

Lemma number_shrinks b s v rest :
  number b s = Parsed v rest -> (String.length rest < String.length s)%nat.
Proof.
  unfold number.
  destruct s as [| c s]; [discriminate |].
  destruct (digit c) as [d |]; [ | discriminate ].
  destruct (int_part d s) as [n r1] eqn:E1. apply int_part_rest in E1.
  destruct (frac_part r1) as [[[f k] r2] |] eqn:E2; [ | discriminate ].
  apply frac_part_rest in E2.
  destruct (exp_part r2) as [[e r3] |] eqn:E3; [ | discriminate ].
  apply exp_part_rest in E3.
  intros H. injection H as _ <-. cbn [String.length]. lia.
Qed.

(** What a successful parse leaves is shorter than what it was given. *)
Lemma parse_shrinks fuel :
  (forall s v rest,
      parse_value fuel s = Parsed v rest ->
      (String.length rest < String.length s)%nat)
  /\ (forall s ms rest,
        parse_members fuel s = Parsed ms rest ->
        (String.length rest < String.length s)%nat)
  /\ (forall s es rest,
        parse_elements fuel s = Parsed es rest ->
        (String.length rest < String.length s)%nat).
Proof.
  induction fuel as [| fuel (IHv & IHm & IHe)].
  - repeat split; intros; discriminate.
  - repeat split.
    + intros s v rest. cbn [parse_value].
      pose proof (skip_ws_length s) as L.
      destruct (skip_ws s) as [| c r]; [discriminate |].
      cbn [String.length] in L.
      repeat match goal with
             | |- context [if ?b then _ else _] => destruct b
             end.
      * pose proof (skip_ws_length r) as L'.
        destruct (skip_ws r) as [| c' r'] eqn:E.
        -- destruct (parse_members fuel r) eqn:Em; try discriminate.
           apply IHm in Em. intros H; injection H as _ <-. lia.
        -- cbn [String.length] in L'.
           assert (Hm : match parse_members fuel r with
                        | Parsed ms rest' => Parsed (Object ms) rest'
                        | SyntaxError => SyntaxError
                        | OutOfFuel => OutOfFuel
                        end = Parsed v rest ->
                        (String.length rest < String.length s)%nat).
           { destruct (parse_members fuel r) eqn:Em; try discriminate.
             apply IHm in Em. intros H; injection H as _ <-. lia. }
           destruct c' as [[] [] [] [] [] [] [] []]; try exact Hm.
           intros H; injection H as _ <-. lia.
      * pose proof (skip_ws_length r) as L'.
        destruct (skip_ws r) as [| c' r'] eqn:E.
        -- destruct (parse_elements fuel r) eqn:Em; try discriminate.
           apply IHe in Em. intros H; injection H as _ <-. lia.
        -- cbn [String.length] in L'.
           assert (Hm : match parse_elements fuel r with
                        | Parsed es rest' => Parsed (Array es) rest'
                        | SyntaxError => SyntaxError
                        | OutOfFuel => OutOfFuel
                        end = Parsed v rest ->
                        (String.length rest < String.length s)%nat).
           { destruct (parse_elements fuel r) eqn:Em; try discriminate.
             apply IHe in Em. intros H; injection H as _ <-. lia. }
           destruct c' as [[] [] [] [] [] [] [] []]; try exact Hm.
           intros H; injection H as _ <-. lia.
      * destruct (string_body r) eqn:Es; try discriminate.
        apply string_body_shrinks in Es. intros H; injection H as _ <-. lia.
      * intros H. apply number_shrinks in H. lia.
      * intros H. apply literal_shrinks in H; [ | discriminate ].
        cbn [String.length] in H. lia.
      * intros H. apply literal_shrinks in H; [ | discriminate ].
        cbn [String.length] in H. lia.
      * intros H. apply literal_shrinks in H; [ | discriminate ].
        cbn [String.length] in H. lia.
      * intros H. apply number_shrinks in H. cbn [String.length] in H. lia.
    + intros s ms rest. cbn [parse_members].
      pose proof (skip_ws_length s) as L.
      destruct (skip_ws s) as [| c r]; [discriminate |].
      cbn [String.length] in L.
      destruct (Nat.eqb (nat_of_ascii c) 34); [ | discriminate ].
      destruct (string_body r) as [key r1 | |] eqn:Es; try discriminate.
      apply string_body_shrinks in Es.
      pose proof (skip_ws_length r1) as L1.
      destruct (skip_ws r1) as [| c1 r2]; [discriminate |].
      cbn [String.length] in L1.
      destruct c1 as [[] [] [] [] [] [] [] []]; try discriminate.
      destruct (parse_value fuel r2) as [v r3 | |] eqn:Ev; try discriminate.
      apply IHv in Ev.
      pose proof (skip_ws_length r3) as L3.
      destruct (skip_ws r3) as [| c3 r4]; [discriminate |].
      cbn [String.length] in L3.
      destruct c3 as [[] [] [] [] [] [] [] []]; try discriminate.
      * intros H; injection H as _ <-. lia.
      * destruct (parse_members fuel r4) eqn:Em; try discriminate.
        apply IHm in Em. intros H; injection H as _ <-. lia.
    + intros s es rest. cbn [parse_elements].
      destruct (parse_value fuel s) as [v r | |] eqn:Ev; try discriminate.
      apply IHv in Ev.
      pose proof (skip_ws_length r) as L.
      destruct (skip_ws r) as [| c r']; [discriminate |].
      cbn [String.length] in L.
      destruct c as [[] [] [] [] [] [] [] []]; try discriminate.
      * intros H; injection H as _ <-. lia.
      * destruct (parse_elements fuel r') eqn:Em; try discriminate.
        apply IHe in Em. intros H; injection H as _ <-. lia.
Qed.

(** With fuel twice the length of the text, the parser does not run out
    of it. *)
Lemma parse_fuel fuel :
  (forall s, (2 * String.length s + 2 <= fuel)%nat ->
             parse_value fuel s <> OutOfFuel)
  /\ (forall s, (2 * String.length s + 1 <= fuel)%nat ->
               parse_members fuel s <> OutOfFuel)
  /\ (forall s, (2 * String.length s + 3 <= fuel)%nat ->
               parse_elements fuel s <> OutOfFuel).
Proof.
  induction fuel as [| fuel (IHv & IHm & IHe)].
  - repeat split; intros; lia.
  - destruct (parse_shrinks fuel) as (Sv & Sm & Se).
    repeat split.
    + intros s Hf. cbn [parse_value].
      pose proof (skip_ws_length s) as L.
      destruct (skip_ws s) as [| c r]; [discriminate |].
      cbn [String.length] in L.
      repeat match goal with
             | |- context [if ?b then _ else _] => destruct b
             end.
      * assert (Hm : parse_members fuel r <> OutOfFuel) by (apply IHm; lia).
        destruct (skip_ws r) as [| c' r'];
          [ | destruct c' as [[] [] [] [] [] [] [] []]; try discriminate ];
          destruct (parse_members fuel r); congruence.
      * assert (Hm : parse_elements fuel r <> OutOfFuel) by (apply IHe; lia).
        destruct (skip_ws r) as [| c' r'];
          [ | destruct c' as [[] [] [] [] [] [] [] []]; try discriminate ];
          destruct (parse_elements fuel r); congruence.
      * pose proof (string_body_fuel r).
        destruct (string_body r); congruence.
      * apply number_fuel.
      * apply literal_fuel.
      * apply literal_fuel.
      * apply literal_fuel.
      * apply number_fuel.
    + intros s Hf. cbn [parse_members].
      pose proof (skip_ws_length s) as L.
      destruct (skip_ws s) as [| c r]; [discriminate |].
      cbn [String.length] in L.
      destruct (Nat.eqb (nat_of_ascii c) 34); [ | discriminate ].
      pose proof (string_body_fuel r) as Hs.
      destruct (string_body r) as [key r1 | |] eqn:Es; try congruence.
      apply string_body_shrinks in Es.
      pose proof (skip_ws_length r1) as L1.
      destruct (skip_ws r1) as [| c1 r2]; [discriminate |].
      cbn [String.length] in L1.
      destruct c1 as [[] [] [] [] [] [] [] []]; try discriminate.
      assert (Hv : parse_value fuel r2 <> OutOfFuel) by (apply IHv; lia).
      destruct (parse_value fuel r2) as [v r3 | |] eqn:Ev; try congruence.
      apply Sv in Ev.
      pose proof (skip_ws_length r3) as L3.
      destruct (skip_ws r3) as [| c3 r4]; [discriminate |].
      cbn [String.length] in L3.
      destruct c3 as [[] [] [] [] [] [] [] []]; try discriminate.
      assert (Hm : parse_members fuel r4 <> OutOfFuel) by (apply IHm; lia).
      destruct (parse_members fuel r4); congruence.
    + intros s Hf. cbn [parse_elements].
      assert (Hv : parse_value fuel s <> OutOfFuel) by (apply IHv; lia).
      destruct (parse_value fuel s) as [v r | |] eqn:Ev; try congruence.
      apply Sv in Ev.
      pose proof (skip_ws_length r) as L.
      destruct (skip_ws r) as [| c r']; [discriminate |].
      cbn [String.length] in L.
      destruct c as [[] [] [] [] [] [] [] []]; try discriminate.
      assert (Hm : parse_elements fuel r' <> OutOfFuel) by (apply IHe; lia).
      destruct (parse_elements fuel r'); congruence.
Qed.

(** [JSON_parse] gives its parser enough fuel: a rejection is a syntax
    error of the text. *)
Lemma JSON_parse_fuel text :
  parse_value (2 * String.length text + 2) text <> OutOfFuel.
Proof. apply (parse_fuel (2 * String.length text + 2)). lia. Qed.

End JsonFacts.

(** ** Symbolic execution of a run *)

(** The scrutinee on which the evaluation of [t] is blocked. *)
Ltac head_scrut t :=
  lazymatch t with
  | match ?x with _ => _ end => head_scrut x
  | (match ?x with _ => _ end) _ => head_scrut x
  | negb ?b => head_scrut b
  | andb ?a _ => head_scrut a
  | truthy (match ?x with _ => _ end) => head_scrut x
  | _ => t
  end.

Ltac simp H :=
  cbn [fst snd world trace app negb andb truthy truthy_string truthy_id
       lastMessage] in H.

Ltac unfold_monad H :=
  cbv beta iota zeta delta
    [async try_catch bind call ret throw return_ observe lastContent] in H.

(** Close a branch whose recorded tests contradict each other. *)
Ltac prune :=
  try match goal with
      | E : truthy ?x = _ |- _ =>
          cbn [truthy truthy_string] in E;
          first [ discriminate E
                | match goal with E' : truthy_string _ = _ |- _ =>
                    rewrite E in E'; discriminate E' end ]
      end.

(** One step of the evaluation recorded in [H]: the outcome of a
    collaborator call, the summary [settle] of a block left folded, or a
    test. *)
Ltac step settle H :=
  lazymatch type of H with
  | ?lhs = _ =>
      let x := head_scrut lhs in
      lazymatch x with
      | lhs => fail "evaluated"
      | _ =>
          first
            [ is_var x; destruct x
            | match goal with E : x = _ |- _ => rewrite E in H end
            | lazymatch type of x with
              | (Result _ * _)%type => destruct x as [[?|?] ?]
              | (Completion _ _ * _)%type =>
                  let E := fresh "E" in
                  destruct x as [[?|?|?] [? ?]] eqn:E;
                  settle E
              end
            | destruct x eqn:? ];
          prune; simp H
      end
  end.

Ltac run settle H :=
  unfold_monad H; simp H; repeat (step settle H); injection H as <- <-.

Ltac no_summary E := fail "no summary for" E.

(** Membership of an event in a log made of explicit events and of the
    events of folded blocks. *)
Ltac in_log H :=
  rewrite ?in_app_iff in H; cbn [In] in H;
  repeat
    match type of H with
    | _ \/ _ => destruct H as [H | H]
    | False => contradiction
    | _ = _ => try discriminate H
    end.

Lemma log2 {E} (l : list E) a b : ((l ++ [a]) ++ [b] = l ++ [a; b])%list.
Proof. now rewrite <- app_assoc. Qed.

Lemma log3 {E} (l : list E) a b c : (((l ++ [a]) ++ [b]) ++ [c] = l ++ [a; b; c])%list.
Proof. now rewrite <- !app_assoc. Qed.

Lemma log0 {E} (l : list E) : l = (l ++ [])%list.
Proof. now rewrite app_nil_r. Qed.

(** ** What the blocks left folded contribute to a run *)

Ltac settles_by_cases :=
  let H := fresh "H" in
  intros ? ? ? H;
  run no_summary H;
  (split; [ discriminate | ]);
  cbn [trace];
  first [ rewrite log3 | rewrite log2 | idtac ];
  first [ eexists; split; [ reflexivity | ]
        | exists []; split; [ apply log0 | ] ];
  (split;
   [ repeat constructor
   | let ev := fresh "ev" in
     let e := fresh "e" in
     let Hin := fresh "Hin" in
     let Hu := fresh "Hu" in
     intros ev e Hin Hu; in_log Hin; subst ev; cbn [uncaught] in Hu;
     first [ contradiction | eexists; reflexivity | idtac ] ]).

Section Settles.

Variable W : Type.
Variable env : Env W.
Variable messages : list Message.t.
Variable activeUser : User.t.
Variable conversationId : option Z.
Variable collectionId : option Z.

Lemma resolveTitle_settles currentTitle userSettings :
  settles title_event
    (resolveTitle W env messages activeUser conversationId currentTitle userSettings).
Proof. unfold resolveTitle. settles_by_cases. Qed.

Lemma storedTitle_settles currentTitle :
  settles stored_event
    (storedTitle W env activeUser conversationId currentTitle).
Proof. unfold storedTitle. settles_by_cases. Qed.

Lemma ensureConversation_settles currentTitle :
  settles conversation_event
    (ensureConversation W env activeUser conversationId currentTitle).
Proof. unfold ensureConversation. settles_by_cases. Qed.

Lemma resolvePrompt_settles userSettings :
  settles prompt_event (resolvePrompt W env activeUser userSettings).
Proof. unfold resolvePrompt. settles_by_cases. Qed.

Lemma resolveProvider_settles userSettings :
  settles no_event (resolveProvider W userSettings).
Proof. unfold resolveProvider. settles_by_cases. Qed.

Lemma fallbackTitle_settles currentTitle :
  settles no_event (fallbackTitle W messages currentTitle).
Proof. unfold fallbackTitle. settles_by_cases. Qed.

Lemma returnedTitle_settles currentTitle :
  settles no_event (returnedTitle W messages currentTitle).
Proof. unfold returnedTitle. settles_by_cases. Qed.

Lemma persist_settles conversationId' result data :
  settles persist_event
    (persist W env messages activeUser collectionId conversationId' result data).
Proof.
  unfold persist. settles_by_cases.
  all: destruct Hu as [-> Hu]; congruence.
Qed.

End Settles.

(** The summary of a folded block of [chatRequest]. *)
Ltac settle E :=
  first
    [ apply resolveTitle_settles in E
    | apply storedTitle_settles in E
    | apply ensureConversation_settles in E
    | apply resolvePrompt_settles in E
    | apply resolveProvider_settles in E
    | apply fallbackTitle_settles in E
    | apply returnedTitle_settles in E
    | apply persist_settles in E ];
  let Hnr := fresh "Hnr" in
  let evs := fresh "evs" in
  let Htr := fresh "Htr" in
  let HK := fresh "HK" in
  let Hun := fresh "Hun" in
  destruct E as (Hnr & evs & Htr & HK & Hun);
  cbn [trace] in Htr;
  match type of Htr with ?t = _ => subst t end;
  try (exfalso; eapply Hnr; reflexivity);
  clear Hnr.

(** An event of one kind is not among the events of a block of another
    kind. *)
Ltac foreign_event H :=
  match goal with
  | HK : Forall _ ?evs |- _ =>
      match type of H with
      | In _ evs =>
          rewrite Forall_forall in HK; apply HK in H; discriminate H
      end
  end.

Ltac in_run H :=
  repeat
    match type of H with
    | In _ (_ ++ _)%list => rewrite in_app_iff in H
    | In _ (_ :: _) => cbn [In] in H
    | In _ [] => contradiction
    | _ \/ _ => destruct H as [H | H]
    | False => contradiction
    | _ = _ => discriminate H
    | In _ _ => foreign_event H
    end.

(** Exhibit an event of a log. *)
Ltac logged :=
  lazymatch goal with
  | |- In _ (_ ++ _)%list => apply in_or_app; first [ left; logged | right; logged ]
  | |- In _ (_ :: _) => first [ left; reflexivity | right; logged ]
  end.

(** ** Strings and logs *)

Lemma append_assoc (a b c : string) : (a ++ b) ++ c = a ++ b ++ c.
Proof. induction a as [| x a IH]; cbn; [reflexivity | now rewrite IH]. Qed.

Lemma append_empty (a : string) : a ++ EmptyString = a.
Proof. induction a as [| x a IH]; cbn; [reflexivity | now rewrite IH]. Qed.

Lemma includes_suffix (a b : string) : includes b (a ++ b).
Proof. exists a, EmptyString. now rewrite append_empty. Qed.

Lemma log4 {E} (l : list E) a b c d :
  ((((l ++ [a]) ++ [b]) ++ [c]) ++ [d] = l ++ [a; b; c; d])%list.
Proof. now rewrite <- !app_assoc. Qed.

Lemma eqb_opt_true o s : eqb_opt o s = true -> o = Some s.
Proof.
  destruct o as [x |]; cbn; [ | discriminate ].
  intros H. apply String.eqb_eq in H. now subst.
Qed.

(** The response of the normal path is not an error envelope. *)
Lemma finalResult_not_error messages result data title :
  ~ ErrorEnvelope messages (finalResult result data title).
Proof. intros (c & now & t & H). discriminate H. Qed.

(** ** The outer boundary and the retrieval short-circuits *)





(** The remediation message names its three steps. *)
Lemma unauthorizedContent_steps (platform homedir : string) :
  includes "1. Restart your PC" (unauthorizedContent platform homedir)
  /\ includes (logPath platform homedir) (unauthorizedContent platform homedir)
  /\ includes "3. Open a GitHub issue at https://github.com/CNTRLAI/notate and include your logs"
       (unauthorizedContent platform homedir).
Proof.
  unfold unauthorizedContent.
  repeat split.
  - exists ("There is an issue with the SECRET_KEY not being in sync across the front/backend."
            ++ nl ++ nl ++ "Please try the following steps:" ++ nl).
    eexists. rewrite !append_assoc. reflexivity.
  - exists ("There is an issue with the SECRET_KEY not being in sync across the front/backend."
            ++ nl ++ nl ++ "Please try the following steps:" ++ nl
            ++ "1. Restart your PC" ++ nl
            ++ "2. If the issue persists, check your logs at:" ++ nl ++ "   ").
    eexists. rewrite !append_assoc. reflexivity.
  - exists ("There is an issue with the SECRET_KEY not being in sync across the front/backend."
            ++ nl ++ nl ++ "Please try the following steps:" ++ nl
            ++ "1. Restart your PC" ++ nl
            ++ "2. If the issue persists, check your logs at:" ++ nl ++ "   "
            ++ logPath platform homedir ++ nl ++ nl).
    exists EmptyString. rewrite !append_assoc. reflexivity.
Qed.

(** The log file of the remediation message depends on the platform. *)
Lemma logPath_by_platform (homedir : string) :
  logPath "darwin" homedir = homedir ++ "/Library/Application Support/notate/main.log"
  /\ logPath "win32" homedir = homedir ++ "/AppData/Roaming/notate/main.log"
  /\ logPath "linux" homedir = homedir ++ "~/.config/notate/main.log".
Proof. repeat split. Qed.

Lemma prefix_append (part rest : string) : prefix part (part ++ rest) = true.
Proof.
  induction part as [| c part IH]; cbn; [ now destruct rest | ].
  destruct (ascii_dec c c); [ exact IH | congruence ].
Qed.

Lemma includesb_complete part whole :
  includes part whole -> includesb part whole = true.
Proof.
  intros (before & after & ->).
  induction before as [| c before IH].
  - cbn [append]. destruct (part ++ after) eqn:E; cbn [includesb];
      rewrite <- E, prefix_append; reflexivity.
  - cbn [append includesb]. rewrite IH. apply orb_true_r.
Qed.

Lemma logPath_darwin platform homedir :
  platform = "darwin" ->
  logPath platform homedir = homedir ++ "/Library/Application Support/notate/main.log".
Proof. intros ->. reflexivity. Qed.

Lemma logPath_win32 platform homedir :
  platform = "win32" ->
  logPath platform homedir = homedir ++ "/AppData/Roaming/notate/main.log".
Proof. intros ->. reflexivity. Qed.

Lemma logPath_other platform homedir :
  platform <> "darwin" -> platform <> "win32" ->
  logPath platform homedir = homedir ++ "~/.config/notate/main.log".
Proof.
  intros Hd Hw. unfold logPath.
  apply String.eqb_neq in Hd. apply String.eqb_neq in Hw.
  now rewrite Hd, Hw.
Qed.

(** The second step of the remediation message names the log file. *)
Lemma unauthorizedContent_log (platform homedir : string) :
  includes ("2. If the issue persists, check your logs at:" ++ nl ++ "   "
              ++ logPath platform homedir)
    (unauthorizedContent platform homedir).
Proof.
  unfold unauthorizedContent.
  exists ("There is an issue with the SECRET_KEY not being in sync across the front/backend."
          ++ nl ++ nl ++ "Please try the following steps:" ++ nl
          ++ "1. Restart your PC" ++ nl).
  eexists. rewrite !append_assoc. reflexivity.
Qed.

(** C2. When the retrieval call of a request reports Unauthorized, the
    request ends there: it was made with a collection id, the retrieval
    query is the last collaborator call, the promise resolves to the
    envelope with id -1, title "Need API Key" and the original messages plus
    one assistant message carrying the remediation steps, and no
    conversation row was created.  The steps are: restart; check the log
    file, which is named by the platform of the host
    ([<home>/Library/Application Support/notate/main.log] on darwin,
    [<home>/AppData/Roaming/notate/main.log] on win32,
    [<home>~/.config/notate/main.log] on any other platform); open an
    issue. *)
Theorem unauthorized_short_circuit
  W (env : Env W) messages activeUser conversationId title collectionId signal
  w out st payload v :
  chatRequest W env messages activeUser conversationId title collectionId signal w
    = (out, st) ->
  In (VectorstoreQuery payload (Resolved (Some v))) (trace st) ->
  reportsUnauthorized v ->
  truthy_id collectionId = true
  /\ (exists before,
        trace st = (before ++ [VectorstoreQuery payload (Resolved (Some v))])%list)
  /\ (exists r m,
        out = Resolved r
        /\ ChatResult.id r = -1
        /\ ChatResult.title r = "Need API Key"
        /\ ChatResult.messages r = (messages ++ [m])%list
        /\ Message.role m = "assistant"
        /\ Message.content m = unauthorizedContent (os_platform W env) (os_homedir W env)
        /\ includes "1. Restart your PC" (Message.content m)
        /\ includes (logPath (os_platform W env) (os_homedir W env)) (Message.content m)
        /\ includes "3. Open a GitHub issue at https://github.com/CNTRLAI/notate and include your logs"
             (Message.content m)
        /\ (os_platform W env = "darwin" ->
            includes
              ("2. If the issue persists, check your logs at:" ++ nl ++ "   "
                 ++ os_homedir W env
                 ++ "/Library/Application Support/notate/main.log")
              (Message.content m))
        /\ (os_platform W env = "win32" ->
            includes
              ("2. If the issue persists, check your logs at:" ++ nl ++ "   "
                 ++ os_homedir W env ++ "/AppData/Roaming/notate/main.log")
              (Message.content m))
        /\ (os_platform W env <> "darwin" ->
            os_platform W env <> "win32" ->
            includes
              ("2. If the issue persists, check your logs at:" ++ nl ++ "   "
                 ++ os_homedir W env ++ "~/.config/notate/main.log")
              (Message.content m)))
  /\ (forall userId t r, ~ In (AddUserConversation userId t r) (trace st)).
Proof.
  intros Hrun Hin [Hs Hm]. revert Hin.
  unfold chatRequest, chatRequest_body, retrieve in Hrun.
  run settle Hrun.
  all: cbn [trace]; intros Hin; in_run Hin.
  all: injection Hin as <- <-.
  all: match goal with
       | E : eqb_opt _ _ = false |- _ => rewrite ?Hs, ?Hm in E; discriminate E
       | _ => idtac
       end.
  all: split; [ reflexivity | ].
  all: split; [ eexists; rewrite app_comm_cons; reflexivity | ].
  all: split; [ | intros userId t' r Hc; in_run Hc ].
  all: eexists; eexists; cbn [envelope newMessage ChatResult.id ChatResult.title
         ChatResult.messages Message.role Message.content].
  all: repeat match goal with |- _ /\ _ => split end;
    try reflexivity; try apply unauthorizedContent_steps.
  all: try (intros Hd; rewrite <- (logPath_darwin _ _ Hd);
            apply unauthorizedContent_log).
  all: try (intros Hw; rewrite <- (logPath_win32 _ _ Hw);
            apply unauthorizedContent_log).
  all: intros Hd Hw; rewrite <- (logPath_other _ _ Hd Hw);
    apply unauthorizedContent_log.
Qed.

Lemma unauthorized_short_circuit_witness :
  In (VectorstoreQuery
        (Query.mk "Explain quantum entanglement in simple terms please" 1 "ada" (Num 7) "papers")
        (Resolved (Some Scenario.unauthorized)))
     (trace (snd unauthorized_run))
  /\ reportsUnauthorized Scenario.unauthorized
  /\ (exists r, fst unauthorized_run = Resolved r /\ ChatResult.title r = "Need API Key")
  /\ (forall userId t r, ~ In (AddUserConversation userId t r) (trace (snd unauthorized_run)))
  /\ (exists r m,
        fst unauthorized_run = Resolved r
        /\ ChatResult.messages r = (Scenario.question ++ [m])%list
        /\ includes
             ("2. If the issue persists, check your logs at:" ++ nl ++ "   "
                ++ "/home/ada~/.config/notate/main.log")
             (Message.content m))
  /\ (exists r m,
        fst (unauthorized_run_on "darwin" "/Users/ada") = Resolved r
        /\ ChatResult.messages r = (Scenario.question ++ [m])%list
        /\ includes
             ("2. If the issue persists, check your logs at:" ++ nl ++ "   "
                ++ "/Users/ada/Library/Application Support/notate/main.log")
             (Message.content m))
  /\ (exists r m,
        fst (unauthorized_run_on "win32" "C:\Users\ada") = Resolved r
        /\ ChatResult.messages r = (Scenario.question ++ [m])%list
        /\ includes
             ("2. If the issue persists, check your logs at:" ++ nl ++ "   "
                ++ "C:\Users\ada/AppData/Roaming/notate/main.log")
             (Message.content m)).
Proof.
  assert (Hu : reportsUnauthorized Scenario.unauthorized) by (split; reflexivity).
  assert (Hrun : unauthorized_run = (fst unauthorized_run, snd unauthorized_run))
    by apply surjective_pairing.
  unfold unauthorized_run at 1 in Hrun.
  assert (Hin : In (VectorstoreQuery
                      (Query.mk "Explain quantum entanglement in simple terms please" 1 "ada" (Num 7) "papers")
                      (Resolved (Some Scenario.unauthorized)))
                   (trace (snd unauthorized_run)))
    by (vm_compute; auto).
  destruct (unauthorized_short_circuit _ _ _ _ _ _ _ _ _ _ _ _ _ Hrun Hin Hu)
    as (_ & _ & (r & m & Hr & _ & Ht & Hms & _ & _ & _ & _ & _ & _ & _ & Hother)
        & Hn).
  split; [exact Hin |]. split; [exact Hu |].
  split; [exists r; split; assumption |]. split; [exact Hn |].
  split.
  { exists r, m. split; [exact Hr |]. split; [exact Hms |].
    apply Hother; discriminate. }
  split.
  - assert (Hrun' : unauthorized_run_on "darwin" "/Users/ada"
                    = (fst (unauthorized_run_on "darwin" "/Users/ada"),
                       snd (unauthorized_run_on "darwin" "/Users/ada")))
      by apply surjective_pairing.
    unfold unauthorized_run_on at 1 in Hrun'.
    assert (Hin' : In (VectorstoreQuery
                         (Query.mk "Explain quantum entanglement in simple terms please" 1 "ada" (Num 7) "papers")
                         (Resolved (Some Scenario.unauthorized)))
                      (trace (snd (unauthorized_run_on "darwin" "/Users/ada"))))
      by (vm_compute; auto).
    destruct (unauthorized_short_circuit _ _ _ _ _ _ _ _ _ _ _ _ _ Hrun' Hin' Hu)
      as (_ & _ & (r' & m' & Hr' & _ & _ & Hms' & _ & _ & _ & _ & _ & Hdarwin & _)
          & _).
    exists r', m'. split; [exact Hr' |]. split; [exact Hms' |].
    apply Hdarwin. reflexivity.
  - assert (Hrun' : unauthorized_run_on "win32" "C:\Users\ada"
                    = (fst (unauthorized_run_on "win32" "C:\Users\ada"),
                       snd (unauthorized_run_on "win32" "C:\Users\ada")))
      by apply surjective_pairing.
    unfold unauthorized_run_on at 1 in Hrun'.
    assert (Hin' : In (VectorstoreQuery
                         (Query.mk "Explain quantum entanglement in simple terms please" 1 "ada" (Num 7) "papers")
                         (Resolved (Some Scenario.unauthorized)))
                      (trace (snd (unauthorized_run_on "win32" "C:\Users\ada"))))
      by (vm_compute; auto).
    destruct (unauthorized_short_circuit _ _ _ _ _ _ _ _ _ _ _ _ _ Hrun' Hin' Hu)
      as (_ & _ & (r' & m' & Hr' & _ & _ & Hms' & _ & _ & _ & _ & _ & _ & Hwin & _)
          & _).
    exists r', m'. split; [exact Hr' |]. split; [exact Hms' |].
    apply Hwin. reflexivity.
Defined.

(** C3 fails on the code.  The retrieval block has no branch for an error
    report other than Unauthorized.  When the vector store resolves to
    [{status: "error", message: "Collection not found"}], the request does
    end in the envelope titled "Error in vectorstore query", but its content
    is the TypeError raised by reading [results.length] from the report:
    the reported detail "Collection not found" is nowhere in it.  When the
    same report carries an array of results, the request is not ended at
    all: the provider is invoked with these results and the response is a
    normal one. *)
Lemma reported_error_detail_dropped :
  reportsGenericError (Resolved (Some collectionNotFound)) "Collection not found"
  /\ In (VectorstoreQuery
           (Query.mk "Explain quantum entanglement in simple terms please" 1 "ada" (Num 7) "papers")
           (Resolved (Some collectionNotFound)))
        (trace (snd reported_error_run))
  /\ (exists res m,
        fst reported_error_run = Resolved res
        /\ ChatResult.id res = -1
        /\ ChatResult.title res = "Error in vectorstore query"
        /\ ChatResult.messages res = (Scenario.question ++ [m])%list
        /\ Message.content m
           = "Error in vectorstore query: TypeError: Cannot read properties of undefined (reading 'length')"
        /\ ~ includes "Collection not found" (Message.content m))
  /\ reportsGenericError (Resolved (Some collectionNotFoundWithResults))
       "Collection not found"
  /\ In (VectorstoreQuery
           (Query.mk "Explain quantum entanglement in simple terms please" 1 "ada" (Num 7) "papers")
           (Resolved (Some collectionNotFoundWithResults)))
        (trace (snd reported_error_with_results_run))
  /\ (exists res args r,
        fst reported_error_with_results_run = Resolved res
        /\ ~ ErrorEnvelope Scenario.question res
        /\ ChatResult.id res = 100
        /\ ChatResult.title res = "Quantum Basics"
        /\ ChatResult.data_content res = Some (JSON_stringify (Data.mk 0 []))
        /\ In (Invoke AnthropicProvider args r)
              (trace (snd reported_error_with_results_run))
        /\ ProviderArgs.data args = Some (Data.mk 0 [])).
Proof.
  split; [ apply error_report; [ reflexivity | reflexivity | discriminate ] | ].
  split; [ vm_compute; auto | ].
  split.
  { do 2 eexists. split; [ vm_compute; reflexivity | ].
    repeat split.
    intros H. apply includesb_complete in H. vm_compute in H. discriminate H. }
  split; [ apply error_report; [ reflexivity | reflexivity | discriminate ] | ].
  split; [ vm_compute; auto | ].
  do 3 eexists. split; [ vm_compute; reflexivity | ].
  split; [ intros (c & now & t & H); discriminate H | ].
  split; [ reflexivity | ]. split; [ reflexivity | ]. split; [ reflexivity | ].
  split; [ vm_compute; auto 10 | reflexivity ].
Qed.

(** ** The retrieval data *)

(** The data in the argument list of a logged invocation. *)
Ltac invoked_data Hin Hd :=
  injection Hin as <- <- <-; cbn [ProviderArgs.data] in Hd;
  first [ discriminate Hd | injection Hd as <- ];
  (split;
   [ reflexivity
   | eexists; eexists;
     (split; [ | cbn [Data.results]; eassumption ]);
     logged ]).

(** C4. Wherever the retrieval data of a request is observed (in the
    argument list of the provider, in the payload recorded against the
    assistant turn, in the [data_content] of the response), its [top_k] is
    the number of elements of its [results], and these are the results the
    vector store returned, of any size; the query carries no top-k
    parameter. *)
Theorem retrieval_top_k
  W (env : Env W) messages activeUser conversationId title collectionId signal
  w out st :
  chatRequest W env messages activeUser conversationId title collectionId signal w
    = (out, st) ->
  (forall p args r d,
      In (Invoke p args r) (trace st) ->
      ProviderArgs.data args = Some d ->
      Data.top_k d = Z.of_nat (List.length (Data.results d))
      /\ exists payload v,
           In (VectorstoreQuery payload (Resolved (Some v))) (trace st)
           /\ VectorstoreData.results v = Some (Data.results d))
  /\ (forall messageId json r,
        In (AddRetrievedData messageId json r) (trace st) ->
        exists d,
          json = JSON_stringify d
          /\ Data.top_k d = Z.of_nat (List.length (Data.results d)))
  /\ (forall res json,
        out = Resolved res ->
        ChatResult.data_content res = Some json ->
        exists d,
          json = JSON_stringify d
          /\ Data.top_k d = Z.of_nat (List.length (Data.results d))).
Proof.
  intros Hrun.
  unfold chatRequest, chatRequest_body, retrieve, persist in Hrun.
  run settle Hrun.
  all: cbn [trace]; split; [ | split ].
  all: try (intros p args r d Hin Hd; in_run Hin; invoked_data Hin Hd).
  all: try (intros messageId json r Hin; in_run Hin;
            injection Hin as <- <- <-; eexists; split; reflexivity).
  all: try (intros res json Hres Hj; injection Hres as <-;
            unfold finalResult in Hj; cbn [envelope ChatResult.data_content option_map] in Hj;
            first [ discriminate Hj | injection Hj as <- ];
            eexists; split; reflexivity).
Qed.

Lemma retrieval_top_k_witness :
  In (Invoke AnthropicProvider retrieval_args (Resolved (Scenario.reply retrieval_args)))
     (trace (snd retrieval_run))
  /\ Data.top_k (Data.mk 2 Scenario.passages)
     = Z.of_nat (List.length (Data.results (Data.mk 2 Scenario.passages))).
Proof.
  assert (Hrun : retrieval_run = (fst retrieval_run, snd retrieval_run))
    by apply surjective_pairing.
  unfold retrieval_run at 1 in Hrun.
  assert (Hin : In (Invoke AnthropicProvider retrieval_args
                      (Resolved (Scenario.reply retrieval_args)))
                   (trace (snd retrieval_run)))
    by (vm_compute; auto 10).
  destruct (retrieval_top_k _ _ _ _ _ _ _ _ _ _ _ Hrun) as (Hargs & _ & _).
  destruct (Hargs _ _ _ _ Hin eq_refl) as (Hk & _).
  split; [exact Hin | exact Hk].
Defined.

(** ** Titles *)

(** C5. For a request with the single user message "Explain quantum
    entanglement in simple terms please", no conversation id and no title,
    that completes with a normal response: the title generator was asked;
    if it answered "Quantum Basics", that is the title of the response; if
    it produced no title and the store has none either, the title of the
    response is the first 20 characters of the message,
    "Explain quantum enta". *)
Theorem title_precedence
  W (env : Env W) timestamp reasoning_content data_content activeUser
  collectionId signal w out st res :
  let messages :=
    [Message.mk "user" "Explain quantum entanglement in simple terms please"
       timestamp reasoning_content data_content] in
  chatRequest W env messages activeUser None None collectionId signal w
    = (out, st) ->
  out = Resolved res ->
  ~ ErrorEnvelope messages res ->
  (exists model generated,
      In (GenerateTitle "Explain quantum entanglement in simple terms please"
            (User.id activeUser) model (Resolved generated))
         (trace st))
  /\ (forall input userId model,
        In (GenerateTitle input userId model (Resolved (Some "Quantum Basics")))
           (trace st) ->
        ChatResult.title res = "Quantum Basics")
  /\ (forall input userId model generated conversationId userId' stored,
        In (GenerateTitle input userId model (Resolved generated)) (trace st) ->
        truthy generated = false ->
        In (GetUserConversationTitle conversationId userId' (Resolved stored))
           (trace st) ->
        truthy stored = false ->
        ChatResult.title res = "Explain quantum enta").
Proof.
  intros messages Hrun Hres Hok. subst messages.
  unfold chatRequest, chatRequest_body, resolveTitle, retrieve, storedTitle,
    fallbackTitle, returnedTitle in Hrun.
  run settle Hrun.
  all: injection Hres as <-.
  all: try (exfalso; apply Hok; eexists; eexists; eexists; reflexivity).
  all: cbn [trace]; split; [ | split ].
  all: try (eexists; eexists; logged).
  all: try (intros input userId model Hin; in_run Hin;
            injection Hin as _ _ _ Hg; subst;
            cbn [truthy truthy_string] in *; first [ discriminate | reflexivity ]).
  all: intros input userId model generated cid userId' stored Hin Hg Hin' Hs;
    in_run Hin; injection Hin as _ _ _ Hgen;
    in_run Hin'; injection Hin' as _ _ Hst;
    subst; cbn [truthy truthy_string] in *;
    first [ discriminate | reflexivity | congruence ].
Qed.

Lemma title_precedence_witness :
  (exists res,
      fst titled_run = Resolved res /\ ChatResult.title res = "Quantum Basics")
  /\ (exists res,
        fst untitled_run = Resolved res
        /\ ChatResult.title res = "Explain quantum enta").
Proof.
  split.
  - assert (Hrun : titled_run = (fst titled_run, snd titled_run))
      by apply surjective_pairing.
    unfold titled_run at 1 in Hrun.
    eexists. split; [vm_compute; reflexivity |].
    refine (proj1 (proj2 (title_precedence _ _ _ _ _ _ _ _ _ _ _ _ Hrun _ _))
              "Explain quantum entanglement in simple terms please" 1
              (Some "claude-3-sonnet") _).
    + vm_compute; reflexivity.
    + intros (c & now & t & H); discriminate H.
    + vm_compute; auto.
  - assert (Hrun : untitled_run = (fst untitled_run, snd untitled_run))
      by apply surjective_pairing.
    unfold untitled_run at 1 in Hrun.
    eexists. split; [vm_compute; reflexivity |].
    refine (proj2 (proj2 (title_precedence _ _ _ _ _ _ _ _ _ _ _ _ Hrun _ _))
              "Explain quantum entanglement in simple terms please" 1
              (Some "claude-3-sonnet") None NaN 1 None _ _ _ _).
    + vm_compute; reflexivity.
    + intros (c & now & t & H); discriminate H.
    + vm_compute; auto.
    + reflexivity.
    + vm_compute; auto.
    + reflexivity.
Defined.

(** C6 fails on the code.  With no conversation id, an empty generated
    title and no stored title, the conversation row is created with no
    title ([null]); the 20-character fallback is computed only afterwards,
    for the provider and the response. *)
Lemma conversation_created_before_fallback :
  exists before after args r res,
    trace (snd empty_title_run)
    = (before ++ AddUserConversation 1 None (Resolved 100) :: after)%list
    /\ In (GenerateTitle "Explain quantum entanglement in simple terms please" 1
             (Some "claude-3-sonnet") (Resolved (Some EmptyString)))
          before
    /\ In (GetUserConversationTitle NaN 1 (Resolved None)) before
    /\ In (Invoke AnthropicProvider args r) after
    /\ ProviderArgs.currentTitle args = Some "Explain quantum enta"
    /\ fst empty_title_run = Resolved res
    /\ ChatResult.title res = "Explain quantum enta".
Proof.
  exists [GetUserSettings 1 (Resolved Scenario.anthropicSettings);
          GenerateTitle "Explain quantum entanglement in simple terms please" 1
            (Some "claude-3-sonnet") (Resolved (Some EmptyString));
          GetUserConversationTitle NaN 1 (Resolved None)].
  do 4 eexists.
  split; [vm_compute; reflexivity |].
  split; [cbn; auto |].
  split; [cbn; auto |].
  split; [cbn; auto |].
  split; [reflexivity |].
  split; [vm_compute; reflexivity | reflexivity].
Qed.

(** ** The sub-agent *)

Ltac run_agent H :=
  unfold Agent.anthropicAgent, Agent.anthropicAgent_body, Agent.push, Agent.lift in H;
  run no_summary H; cbn [trace] in *;
  try match goal with
      | E : Qeq_bool (Agent.AgentActions.webUrl Agent.noWebSearch) 1 = true |- _ =>
          vm_compute in E; discriminate E
      end.

(** The two backend texts of C7 and what the schema makes of them. *)
Lemma readActions_with_prose :
  Agent.readActions [Agent.Block.mk "text" Scenario.withProse]
  = Rejected Json.syntaxError.
Proof. vm_compute. reflexivity. Qed.

Lemma readActions_well_formed :
  Agent.readActions [Agent.Block.mk "text" Scenario.wellFormed]
  = Resolved (Agent.AgentActions.mk 1 "https://example.com").
Proof. vm_compute. reflexivity. Qed.

(** The [try] statement of [anthropicAgent] computes [decision]. *)
Lemma decision_spec W (content : list Agent.Block.t)
  (st : State W Agent.Event) :
  try_catch (R := Agent.Response.t) (Agent.lift (Agent.readActions content))
    (fun _ => ret Agent.noWebSearch) st
  = (Normal (Agent.decision content), st).
Proof.
  unfold try_catch, Agent.lift, Agent.decision, ret, throw.
  destruct (Agent.readActions content); reflexivity.
Qed.

(** C7. Once the backend has answered, [anthropicAgent] does not reject.
    When the text of the answer does not parse or does not fit the schema
    (as for "Sure! " followed by the JSON object), the decision is the
    default (webUrl 0, empty url): no resource is fetched and the
    response says so.  The exact well-formed text is read as webUrl 1 with
    URL https://example.com, and a fetch of that URL is attempted. *)
Theorem strict_schema_parsing
  W (env : Agent.Env W) messages maxOutputTokens userSettings signal mainWindow
  w out st :
  Agent.anthropicAgent W env messages maxOutputTokens userSettings signal
    mainWindow w = (out, st) ->
  Agent.decision [Agent.Block.mk "text" Scenario.withProse] = Agent.noWebSearch
  /\ Agent.decision [Agent.Block.mk "text" Scenario.wellFormed]
     = Agent.AgentActions.mk 1 "https://example.com"
  /\ (forall params content,
        In (Agent.MessagesCreate params (Resolved content)) (trace st) ->
        exists res, out = Resolved res)
  /\ (forall params content e,
        In (Agent.MessagesCreate params (Resolved content)) (trace st) ->
        Agent.readActions content = Rejected e ->
        out = Resolved noSearchResponse
        /\ forall url r, ~ In (Agent.WebSearch url r) (trace st))
  /\ (forall params,
        In (Agent.MessagesCreate params
              (Resolved [Agent.Block.mk "text" Scenario.withProse]))
           (trace st) ->
        out = Resolved noSearchResponse
        /\ forall url r, ~ In (Agent.WebSearch url r) (trace st))
  /\ (forall params,
        In (Agent.MessagesCreate params
              (Resolved [Agent.Block.mk "text" Scenario.wellFormed]))
           (trace st) ->
        exists r, In (Agent.WebSearch "https://example.com" r) (trace st)).
Proof.
  intros Hrun.
  split; [ vm_compute; reflexivity | ].
  split; [ vm_compute; reflexivity | ].
  run_agent Hrun.
  all: split; [ | split; [ | split ] ].
  all: try (intros params content Hin; in_run Hin; eexists; reflexivity).
  all: try (intros params content err Hin Hr; in_run Hin;
            injection Hin as <- <-;
            first [ congruence
                  | split; [ reflexivity | intros url r Hw; in_run Hw ] ]).
  all: try (intros params Hin; in_run Hin; injection Hin as _ Ha; subst;
            match goal with
            | E : Agent.readActions _ = _ |- _ =>
                rewrite readActions_with_prose in E;
                first [ discriminate E
                      | split; [ reflexivity | intros url r Hw; in_run Hw ] ]
            end).
  all: intros params Hin; in_run Hin; injection Hin as _ Ha; subst;
    match goal with
    | E : Agent.readActions _ = _ |- _ =>
        rewrite readActions_well_formed in E;
        first [ discriminate E | injection E as <- ]
    end;
    first [ discriminate | eexists; logged ].
Qed.

Lemma strict_schema_parsing_witness :
  (fst prose_run = Resolved noSearchResponse
   /\ forall url r, ~ In (Agent.WebSearch url r) (trace (snd prose_run)))
  /\ exists r,
       In (Agent.WebSearch "https://example.com" r) (trace (snd well_formed_run)).
Proof.
  split.
  - assert (Hrun : prose_run = (fst prose_run, snd prose_run))
      by apply surjective_pairing.
    unfold prose_run at 1 in Hrun.
    destruct (strict_schema_parsing _ _ _ _ _ _ _ _ _ _ Hrun)
      as (_ & _ & _ & _ & H & _).
    eapply H. vm_compute. auto.
  - assert (Hrun : well_formed_run = (fst well_formed_run, snd well_formed_run))
      by apply surjective_pairing.
    unfold well_formed_run at 1 in Hrun.
    destruct (strict_schema_parsing _ _ _ _ _ _ _ _ _ _ Hrun)
      as (_ & _ & _ & _ & _ & H).
    eapply H. vm_compute. auto.
Defined.

(** C8. When the fetch of the URL the agent decided on fails,
    [anthropicAgent] does not reject: it pushes the notice
    "[REASONING]: Failed to visit website: <url>" to the UI sink and
    resolves to the content "No web search was needed or the search failed"
    with a null web-search result.  The fetch was attempted because the
    decision read from the backend had [webUrl] 1 and that URL. *)
Theorem fetch_failure_recovered
  W (env : Agent.Env W) messages maxOutputTokens userSettings signal mainWindow
  w out st url e :
  Agent.anthropicAgent W env messages maxOutputTokens userSettings signal
    mainWindow w = (out, st) ->
  In (Agent.WebSearch url (Rejected e)) (trace st) ->
  out = Resolved noSearchResponse
  /\ Agent.Response.content noSearchResponse
     = "No web search was needed or the search failed"
  /\ Agent.Response.webSearchResult noSearchResponse = None
  /\ (exists before,
        trace st =
        (before ++
         [Agent.WebSearch url (Rejected e);
          Agent.SendMessageChunk
            ("[REASONING]: Failed to visit website: " ++ url ++ nl) mainWindow])%list)
  /\ (exists params content actions,
        In (Agent.MessagesCreate params (Resolved content)) (trace st)
        /\ Agent.readActions content = Resolved actions
        /\ Qeq_bool (Agent.AgentActions.webUrl actions) 1 = true
        /\ Agent.AgentActions.url actions = url).
Proof.
  intros Hrun Hin. revert Hin.
  run_agent Hrun.
  all: intros Hin; in_run Hin; injection Hin as <- <-.
  repeat split.
  - eexists [_; _]. reflexivity.
  - do 3 eexists. split; [logged | ]. repeat split; eassumption.
Qed.

Lemma fetch_failure_recovered_witness :
  In (Agent.WebSearch "https://example.com" (Rejected Scenario.timeout))
     (trace (snd failed_fetch_run))
  /\ fst failed_fetch_run = Resolved noSearchResponse
  /\ In (Agent.SendMessageChunk
           ("[REASONING]: Failed to visit website: https://example.com" ++ nl) None)
        (trace (snd failed_fetch_run)).
Proof.
  assert (Hrun : failed_fetch_run = (fst failed_fetch_run, snd failed_fetch_run))
    by apply surjective_pairing.
  unfold failed_fetch_run at 1 in Hrun.
  assert (Hin : In (Agent.WebSearch "https://example.com" (Rejected Scenario.timeout))
                   (trace (snd failed_fetch_run)))
    by (vm_compute; auto).
  destruct (fetch_failure_recovered _ _ _ _ _ _ _ _ _ _ _ _ Hrun Hin)
    as (Hout & _ & _ & (before & Ht) & _).
  split; [exact Hin |]. split; [exact Hout |].
  rewrite Ht. apply in_or_app. right. right. left. reflexivity.
Defined.

(** ** Persistence *)

(** C9. When a write of the persistence phase fails after the provider
    answered with [result]: a foreign-key violation is ignored and the
    request resolves to the normal response built from [result]; a failure
    of any other class reaches the outer boundary, and the request resolves
    to the generic envelope.  In neither case does [chatRequest] reject. *)
Theorem persistence_failure
  W (env : Env W) messages activeUser conversationId title collectionId signal
  w out st p args result ev e :
  chatRequest W env messages activeUser conversationId title collectionId signal w
    = (out, st) ->
  In (Invoke p args (Resolved result)) (trace st) ->
  In ev (trace st) ->
  persistenceFailure ev e ->
  (isForeignKeyError e = true ->
   exists title',
     out = Resolved (finalResult result (ProviderArgs.data args) title'))
  /\ (isForeignKeyError e = false ->
      exists res, out = Resolved res /\ NeedApiKey messages res).
Proof.
  intros Hrun Hin Hev Hfail. revert Hin Hev.
  unfold chatRequest, chatRequest_body, retrieve, persist, returnedTitle in Hrun.
  run settle Hrun.
  all: cbn [trace]; intros Hin Hev; in_run Hin.
  all: injection Hin as <- <- <-.
  all: in_run Hev; try subst ev; cbn [persistenceFailure] in Hfail;
    try contradiction.
  all: try match goal with
       | HK : Forall _ ?evs, H : In ?x ?evs |- _ =>
           rewrite Forall_forall in HK; apply HK in H;
           destruct x; try discriminate H; contradiction
       end.
  all: subst; split; intros Hfk; try congruence.
  all: first [ eexists; reflexivity
             | eexists; split; [ reflexivity | eexists; reflexivity ] ].
Qed.

Lemma persistence_failure_witness :
  (exists title',
      fst duplicate_run
      = Resolved (finalResult (Scenario.reply retrieval_args)
                    (ProviderArgs.data retrieval_args) title'))
  /\ (exists res,
        fst disk_full_run = Resolved res /\ NeedApiKey Scenario.question res).
Proof.
  split.
  - assert (Hrun : duplicate_run = (fst duplicate_run, snd duplicate_run))
      by apply surjective_pairing.
    unfold duplicate_run at 1 in Hrun.
    refine (proj1 (persistence_failure _ _ _ _ _ _ _ _ _ _ _
                     AnthropicProvider retrieval_args (Scenario.reply retrieval_args)
                     (AddUserMessage 1 (Num 100) "user"
                        "Explain quantum entanglement in simple terms please"
                        None None (Rejected Scenario.foreignKey))
                     Scenario.foreignKey Hrun _ _ _) _).
    + vm_compute; auto 10.
    + vm_compute; auto 10.
    + reflexivity.
    + reflexivity.
  - assert (Hrun : disk_full_run = (fst disk_full_run, snd disk_full_run))
      by apply surjective_pairing.
    unfold disk_full_run at 1 in Hrun.
    refine (proj2 (persistence_failure _ _ _ _ _ _ _ _ _ _ _
                     AnthropicProvider retrieval_args (Scenario.reply retrieval_args)
                     (AddUserMessage 1 (Num 100) "assistant"
                        "Entangled particles share one state." None
                        (Some (Num 7)) (Rejected Scenario.diskFull))
                     Scenario.diskFull Hrun _ _ _) _).
    + vm_compute; auto 10.
    + vm_compute; auto 10.
    + reflexivity.
    + reflexivity.
Defined.

(** C10, as stated, fails: when the write of the user turn is refused as a
    foreign-key violation, the error is ignored and the request completes
    with a normal response that carries the retrieval data, yet neither the
    assistant turn nor the retrieval payload has been recorded. *)
Lemma ignored_violation_skips_retrieval_record :
  exists res,
    fst duplicate_run = Resolved res
    /\ ~ ErrorEnvelope Scenario.question res
    /\ ChatResult.data_content res
       = Some (JSON_stringify (Data.mk 2 Scenario.passages))
    /\ In (AddUserMessage 1 (Num 100) "user"
             "Explain quantum entanglement in simple terms please" None None
             (Rejected Scenario.foreignKey))
          (trace (snd duplicate_run))
    /\ (forall messageId json r,
          ~ In (AddRetrievedData messageId json r) (trace (snd duplicate_run)))
    /\ (forall userId conversationId content reasoning collectionId r,
          ~ In (AddUserMessage userId conversationId "assistant" content
                  reasoning collectionId r)
               (trace (snd duplicate_run))).
Proof.
  eexists. split; [vm_compute; reflexivity |].
  split; [intros (c & now & t & H); discriminate H |].
  split; [vm_compute; reflexivity |].
  split; [vm_compute; auto 10 |].
  split.
  - intros messageId json r H. vm_compute in H.
    repeat (destruct H as [H | H]; [discriminate H |]). exact H.
  - intros userId conversationId content reasoning collectionId r H.
    vm_compute in H.
    repeat (destruct H as [H | H]; [discriminate H |]). exact H.
Qed.

(** C10, amended. When a request completes with a normal response that
    carries retrieval data, and no write of the persistence phase failed,
    the log ends with the provider invocation followed by the three writes
    in order: the user turn, the assistant turn, and the retrieval payload
    recorded against the id the assistant turn was given.  (After an ignored
    foreign-key violation the remaining writes are skipped.) *)
Theorem retrieval_persisted
  W (env : Env W) messages activeUser conversationId title collectionId signal
  w out st res json :
  chatRequest W env messages activeUser conversationId title collectionId signal w
    = (out, st) ->
  out = Resolved res ->
  ~ ErrorEnvelope messages res ->
  ChatResult.data_content res = Some json ->
  (forall ev e, In ev (trace st) -> ~ persistenceFailure ev e) ->
  exists before p args result d m userTurn assistantTurn,
    ProviderArgs.data args = Some d
    /\ json = JSON_stringify d
    /\ lastMessage messages = Some m
    /\ trace st =
       (before ++
        [Invoke p args (Resolved result);
         AddUserMessage (User.id activeUser)
           (Number (ProviderArgs.conversationId args)) "user"
           (Message.content m) None None (Resolved userTurn);
         AddUserMessage (User.id activeUser)
           (Number (ProviderArgs.conversationId args)) "assistant"
           (ProviderResponse.content result) (ProviderResponse.reasoning result)
           (Some (Number collectionId)) (Resolved assistantTurn);
         AddRetrievedData (Num assistantTurn) json (Resolved tt)])%list.
Proof.
  intros Hrun Hres Hok Hdata Hwrites. revert Hwrites.
  unfold chatRequest, chatRequest_body, retrieve, persist, returnedTitle in Hrun.
  run settle Hrun.
  all: injection Hres as <-.
  all: try (exfalso; apply Hok; eexists; eexists; eexists; reflexivity).
  all: unfold finalResult in Hdata;
    cbn [ChatResult.data_content option_map] in Hdata;
    first [ discriminate Hdata | injection Hdata as <- ].
  all: cbn [trace]; intros Hwrites.
  all: try match type of Hwrites with
           | context [AddUserMessage ?u ?c ?r ?t ?s ?k (Rejected ?x)] =>
               exfalso;
               apply (Hwrites (AddUserMessage u c r t s k (Rejected x)) x);
               [ logged | reflexivity ]
           | context [AddRetrievedData ?i ?j (Rejected ?x)] =>
               exfalso;
               apply (Hwrites (AddRetrievedData i j (Rejected x)) x);
               [ logged | reflexivity ]
           end.
  all: repeat match goal with u : unit |- _ => destruct u end.
  all: do 8 eexists;
    (split; [ | split; [ | split; [ | rewrite log4; exact (app_comm_cons _ _ _) ] ] ]).
  all: first [ reflexivity | eassumption ].
Qed.

Lemma retrieval_persisted_witness :
  exists before userTurn assistantTurn,
    trace (snd retrieval_run) =
    (before ++
     [Invoke AnthropicProvider retrieval_args (Resolved (Scenario.reply retrieval_args));
      AddUserMessage 1 (Num 100) "user"
        "Explain quantum entanglement in simple terms please" None None
        (Resolved userTurn);
      AddUserMessage 1 (Num 100) "assistant"
        "Entangled particles share one state." None (Some (Num 7))
        (Resolved assistantTurn);
      AddRetrievedData (Num assistantTurn)
        (JSON_stringify (Data.mk 2 Scenario.passages)) (Resolved tt)])%list.
Proof.
  assert (Hrun : retrieval_run = (fst retrieval_run, snd retrieval_run))
    by apply surjective_pairing.
  unfold retrieval_run at 1 in Hrun.
  destruct (retrieval_persisted _ _ _ _ _ _ _ _ _ _ _
              (finalResult (Scenario.reply retrieval_args)
                 (Some (Data.mk 2 Scenario.passages)) "Quantum Basics")
              (JSON_stringify (Data.mk 2 Scenario.passages)) Hrun)
    as (before & p & args & result & d & m & u & a & Hd & Hj & Hm & Ht).
  - vm_compute; reflexivity.
  - apply finalResult_not_error.
  - reflexivity.
  - intros ev e H. vm_compute in H.
    repeat (destruct H as [H | H]; [subst ev; exact (fun F => F) |]).
    destruct H.
  - vm_compute in Ht.
    exists [GetUserSettings 1 (Resolved Scenario.anthropicSettings);
            GenerateTitle "Explain quantum entanglement in simple terms please" 1
              (Some "claude-3-sonnet") (Resolved (Some "Quantum Basics"));
            GetCollectionName (Num 7) (Resolved "papers");
            VectorstoreQuery
              (Query.mk "Explain quantum entanglement in simple terms please" 1
                 "ada" (Num 7) "papers")
              (Resolved (Some Scenario.found));
            AddUserConversation 1 (Some "Quantum Basics") (Resolved 100);
            GetUserPrompt 1 NaN (Resolved None)],
      101, 102.
    vm_compute. reflexivity.
Defined.
